(** * torchio: the [Lambda] and [BoundsTransform] transforms

    A shallow embedding of
    - [torchio/transforms/lambda_transform.py] and
    - [torchio/transforms/preprocessing/spatial/bounds_transform.py],
    together with the properties their specification states about them.

    Python objects that are mutated in place (the image dictionaries of a
    sample) live in a store indexed by object identity; a transform is a
    function from stores to an outcome and a store, so that what has been
    written before an exception is raised stays visible afterwards. *)

From Stdlib Require Import ZArith String List Lia.
From stdpp Require Import base tactics decidable option list gmap strings pretty.

Local Open Scope string_scope.
Local Open Scope list_scope.
Local Open Scope Z_scope.

(** ** Exceptions and outcomes *)

(** The exception classes that the two source files and the operations they
    call can raise.  [ValueError] carries its message. *)
Inductive exn : Type :=
| ValueError (message : string)
| TypeError
| IndexError
| AttributeError
| NotImplementedError
| RuntimeError.

Inductive result (A : Type) : Type :=
| Ok (a : A)
| Raise (e : exn).
Arguments Ok {A} a.
Arguments Raise {A} e.

(** ** Tensors, arrays and other Python values *)

(** The element types shared by [torch] and [numpy]. *)
Inductive dtype : Type :=
| float16 | float32 | float64
| uint8 | int8 | int16 | int32 | int64
| bool_.

Global Instance dtype_eq_dec : EqDecision dtype.
Proof. solve_decision. Defined.

(** What a [torch.Tensor] and a [numpy.ndarray] hold: an element type, a
    shape, and the elements in row-major order, each as its bit pattern. *)
Record array : Type := mkArray {
  dtype_of : dtype;
  shape : list nat;
  elements : list Z
}.

(** A Python value: a tensor, an array, or an object of some other class
    (named by [cls]) that has neither [ndim] nor [dtype]. *)
Inductive value : Type :=
| VTensor (t : array)
| VNdarray (a : array)
| VOpaque (cls : string).

(** What [DATA] holds: a Python list of values, or a tensor. *)
Inductive container : Type :=
| CList (items : list value)
| CTensor (t : array).

(** An image dictionary, with the three keys [TYPE], [DATA] and [AFFINE]
    that the transforms read and write. *)
Record ImageDict : Type := mkImageDict {
  TYPE : string;
  DATA : container;
  AFFINE : value
}.

(** [image_dict[DATA] = c] *)
Definition set_DATA (image_dict : ImageDict) (c : container) : ImageDict :=
  mkImageDict (TYPE image_dict) c (AFFINE image_dict).

(** [image_dict[AFFINE] = v] *)
Definition set_AFFINE (image_dict : ImageDict) (v : value) : ImageDict :=
  mkImageDict (TYPE image_dict) (DATA image_dict) v.

(** ** The store *)

(** Object identities. *)
Definition loc : Type := nat.

(** The objects a sample refers to: image dictionaries and anything else. *)
Inductive object : Type :=
| OImage (image_dict : ImageDict)
| OOther (v : value).

Abbreviation store := (gmap loc object).

(** A sample: names in insertion order, each with the identity of its
    value.  The transforms never add, remove or rebind a name. *)
Definition Sample : Type := list (string * loc).

(** [sample.values()] *)
Definition values (sample : Sample) : list loc := sample.*2.

(** Modelled from the spec: [is_image_dict] of [torchio/utils.py], which is
    not among the sources.  The spec has it as the recognisability predicate
    that yields a typed view of the entries that are image dictionaries and
    nothing for the others. *)
Definition is_image_dict (σ : store) (l : loc) : option ImageDict :=
  match σ !! l with
  | Some (OImage image_dict) => Some image_dict
  | _ => None
  end.

(** A computation on the store that returns or raises. *)
Definition M (A : Type) : Type := store -> result A * store.

(** [for x in xs: body(x)]: an exception ends the loop and keeps the store
    as it is at that point. *)
Fixpoint for_each {A : Type} (body : A -> M unit) (xs : list A) : M unit :=
  fun σ =>
    match xs with
    | [] => (Ok tt, σ)
    | x :: xs' =>
        match body x σ with
        | (Ok _, σ') => for_each body xs' σ'
        | (Raise e, σ') => (Raise e, σ')
        end
    end.

(** ** Indexing *)

(** [c[0]]: the first item of a list, the first slice of a tensor. *)
Definition getitem0 (c : container) : result value :=
  match c with
  | CList [] => Raise IndexError
  | CList (x :: _) => Ok x
  | CTensor t =>
      match shape t with
      | [] => Raise IndexError
      | O :: _ => Raise IndexError
      | S _ :: rest =>
          Ok (VTensor (mkArray (dtype_of t) rest
                               (take (foldr Nat.mul 1%nat rest) (elements t))))
      end
  end.

(** [v.ndim] *)
Definition ndim (v : value) : result nat :=
  match v with
  | VTensor t | VNdarray t => Ok (length (shape t))
  | VOpaque _ => Raise AttributeError
  end.

(** [repr] of [v.dtype] for a tensor and of [type(v)]. *)
Definition dtype_name (d : dtype) : string :=
  match d with
  | float16 => "float16" | float32 => "float32" | float64 => "float64"
  | uint8 => "uint8" | int8 => "int8" | int16 => "int16"
  | int32 => "int32" | int64 => "int64"
  | bool_ => "bool"
  end.

Definition dtype_repr (d : dtype) : string := "torch." +:+ dtype_name d.

Definition Tensor_repr : string := "<class 'torch.Tensor'>".

Definition type_repr (v : value) : string :=
  match v with
  | VTensor _ => Tensor_repr
  | VNdarray _ => "<class 'numpy.ndarray'>"
  | VOpaque cls => "<class '" +:+ cls +:+ "'>"
  end.

(** ** BoundsTransform *)

Module BoundsTransform.

(** [TypeBounds]: an [int], or a sequence of [int]s (the annotation names
    tuples of 3 and of 6, the code accepts any iterable). *)
Inductive TypeBounds : Type :=
| BInt (n : Z)
| BSeq (items : list Z).

(** *** numpy's conversion of a tuple of Python integers

    [np.repeat(t, 2)] first converts the tuple [t] to an array.  numpy gives
    each Python integer the first of [int64], [uint64], [object] that holds
    it, and the array the promotion of these: [int64] with [uint64] is
    [float64].  [tolist()] hands back Python numbers; a [float] is
    represented here by its (integral) numeric value. *)
Inductive np_dtype : Type := np_int64 | np_uint64 | np_float64 | np_object.

Definition int64_min : Z := - 2 ^ 63.
Definition int64_max : Z := 2 ^ 63 - 1.
Definition uint64_max : Z := 2 ^ 64 - 1.

Definition np_discover (x : Z) : np_dtype :=
  if (int64_min <=? x) && (x <=? int64_max) then np_int64
  else if (0 <=? x) && (x <=? uint64_max) then np_uint64
  else np_object.

Definition np_promote (a b : np_dtype) : np_dtype :=
  match a, b with
  | np_object, _ | _, np_object => np_object
  | np_float64, _ | _, np_float64 => np_float64
  | np_int64, np_int64 => np_int64
  | np_uint64, np_uint64 => np_uint64
  | np_int64, np_uint64 | np_uint64, np_int64 => np_float64
  end.

(** The dtype of [np.asarray(t)]; the empty array is [float64]. *)
Definition np_result_dtype (t : list Z) : np_dtype :=
  match t with
  | [] => np_float64
  | x :: t' => foldl (fun d y => np_promote d (np_discover y)) (np_discover x) t'
  end.

(** The binary64 number nearest to the integer [x], ties to even: 53
    significant bits are kept. *)
Definition float64_of_int (x : Z) : Z :=
  let a := Z.abs x in
  let e := Z.log2 a in
  if e <=? 52 then x
  else
    let ulp := 2 ^ (e - 52) in
    let q := a / ulp in
    let r := a mod ulp in
    let q' := if 2 * r <? ulp then q
              else if ulp <? 2 * r then q + 1
              else if Z.even q then q else q + 1 in
    Z.sgn x * (q' * ulp).

Definition np_asarray (t : list Z) : list Z :=
  match np_result_dtype t with
  | np_float64 => float64_of_int <$> t
  | _ => t
  end.

(** [np.repeat(t, k).tolist()] *)
Definition np_repeat (t : list Z) (k : nat) : list Z :=
  x ← np_asarray t; replicate k x.

(** [k * t] on tuples *)
Definition tuple_mul (k : nat) (t : list Z) : list Z :=
  concat (replicate k t).

(** [repr] of a tuple of integers, as an f-string prints it. *)
Fixpoint join_comma (l : list string) : string :=
  match l with
  | [] => ""
  | [s] => s
  | s :: l' => s +:+ ", " +:+ join_comma l'
  end.

Definition tuple_repr (t : list Z) : string :=
  match t with
  | [x] => "(" +:+ pretty x +:+ ",)"
  | _ => "(" +:+ join_comma (pretty <$> t) +:+ ")"
  end.

Definition bounds_message_prefix : string :=
  "Bounds parameter must be an integer or a tuple of 3 or 6 integers, not ".

(** [tuple(bounds_parameters)], with the [except TypeError] branch that
    wraps what is not iterable in a 1-tuple. *)
Definition as_tuple (bounds_parameters : TypeBounds) : list Z :=
  match bounds_parameters with
  | BSeq items => items
  | BInt n => [n]
  end.

(** [BoundsTransform.parse_bounds] *)
Definition parse_bounds (bounds_parameters : TypeBounds) : result (list Z) :=
  let bounds_parameters := as_tuple bounds_parameters in
  let bounds_parameters_length := length bounds_parameters in
  if (bounds_parameters_length =? 6)%nat then Ok bounds_parameters
  else if (bounds_parameters_length =? 1)%nat then Ok (tuple_mul 6 bounds_parameters)
  else if (bounds_parameters_length =? 3)%nat then Ok (np_repeat bounds_parameters 2)
  else Raise (ValueError (bounds_message_prefix +:+ tuple_repr bounds_parameters)).

(** The state of a [BoundsTransform]: what [__init__] stores. *)
Record t : Type := mk {
  bounds_parameters : list Z
}.

(** [BoundsTransform.__init__]: the parsed bounds are stored, and an
    exception of [parse_bounds] leaves no object behind. *)
Definition init (bounds_parameters : TypeBounds) : result t :=
  match parse_bounds bounds_parameters with
  | Ok parsed => Ok (mk parsed)
  | Raise e => Raise e
  end.

(** [t[::2]] and [t[1::2]] *)
Fixpoint every_other {A : Type} (l : list A) : list A :=
  match l with
  | [] => []
  | [x] => [x]
  | x :: _ :: l' => x :: every_other l'
  end.

Definition slice_0_2 {A : Type} (l : list A) : list A := every_other l.
Definition slice_1_2 {A : Type} (l : list A) : list A := every_other (drop 1 l).

(** [torch.from_numpy(data)]: the tensor shares the array's contents. *)
Definition from_numpy (data : value) : result array :=
  match data with
  | VNdarray a => Ok a
  | _ => Raise TypeError
  end.

(** [tensor.unsqueeze(0)] *)
Definition unsqueeze0 (a : array) : array :=
  mkArray (dtype_of a) (1%nat :: shape a) (elements a).

Section WithSimpleITK.

(** The image type of SimpleITK, and the two conversions that the
    [Transform] base class supplies ([torchio/transforms/transform.py] is
    not among the sources): they are parameters here, and each may raise. *)
Variable sitk_image : Type.
Variable nib_to_sitk : value -> value -> result sitk_image.
Variable sitk_to_nib : sitk_image -> result (value * value).

(** The [bounds_function] property: the base class raises
    [NotImplementedError], a subclass returns the operation to call. *)
Variable bounds_function :
  result (sitk_image -> list Z -> list Z -> result sitk_image).

(** The body of the loop of [apply_transform], for one value of the
    sample. *)
Definition body (low high : list Z) (l : loc) : M unit :=
  fun σ =>
    match is_image_dict σ l with
    | None => (Ok tt, σ)
    | Some image_dict =>
        match getitem0 (DATA image_dict) with
        | Raise e => (Raise e, σ)
        | Ok data0 =>
            match nib_to_sitk data0 (AFFINE image_dict) with
            | Raise e => (Raise e, σ)
            | Ok image =>
                match bounds_function with
                | Raise e => (Raise e, σ)
                | Ok f =>
                    match f image low high with
                    | Raise e => (Raise e, σ)
                    | Ok result =>
                        match sitk_to_nib result with
                        | Raise e => (Raise e, σ)
                        | Ok (data, affine) =>
                            match from_numpy data with
                            | Raise e => (Raise e, σ)
                            | Ok a =>
                                let tensor := unsqueeze0 a in
                                (Ok tt,
                                 <[l := OImage (set_AFFINE
                                                  (set_DATA image_dict (CTensor tensor))
                                                  affine)]> σ)
                            end
                        end
                    end
                end
            end
        end
    end.

(** [BoundsTransform.apply_transform] *)
Definition apply_transform (self : t) (sample : Sample) : M Sample :=
  fun σ =>
    let low := slice_0_2 (bounds_parameters self) in
    let high := slice_1_2 (bounds_parameters self) in
    match for_each (body low high) (values sample) σ with
    | (Ok _, σ') => (Ok sample, σ')
    | (Raise e, σ') => (Raise e, σ')
    end.

End WithSimpleITK.

End BoundsTransform.

(** ** Lambda *)

Module Lambda.

(** The state of a [Lambda]: the callable, taken to be pure and total, and
    the optional list of image types. *)
Record t : Type := mk {
  function : value -> value;
  types_to_apply : option (list string)
}.

(** The three messages of [apply_transform]. *)
Definition message_type (result : value) : string :=
  "The returned value from the callable argument must be"
  +:+ " of type " +:+ Tensor_repr +:+ ", not " +:+ type_repr result.

Definition message_dtype (result_dtype : dtype) : string :=
  "The data type of the returned value must be"
  +:+ " of type " +:+ dtype_repr float32 +:+ ", not " +:+ dtype_repr result_dtype.

Definition message_ndim (expected actual : nat) : string :=
  "The number of dimensions of the returned value must"
  +:+ " be " +:+ pretty expected +:+ ", not " +:+ pretty actual.

(** [self.types_to_apply is not None and image_type not in self.types_to_apply] *)
Definition filtered_out (self : t) (image_type : string) : bool :=
  match types_to_apply self with
  | None => false
  | Some types => negb (bool_decide (image_type ∈ types))
  end.

(** The contract of the specification for what the callable returns on
    [function_arg]: a tensor, of 32-bit floats, with as many dimensions as
    [function_arg]. *)
Definition accepted (function_arg result : value) : bool :=
  match result, ndim function_arg with
  | VTensor r, Ok n =>
      bool_decide (dtype_of r = float32) && bool_decide (length (shape r) = n)
  | _, _ => false
  end.

(** What the specification says a [Lambda] does to one object: the first
    item of [DATA] of an image whose type passes the filter is replaced by
    what the callable returns for it. *)
Definition applied (self : t) (o : object) : object :=
  match o with
  | OImage image_dict =>
      if filtered_out self (TYPE image_dict) then o
      else
        match DATA image_dict with
        | CList (x :: items) =>
            OImage (set_DATA image_dict (CList (function self x :: items)))
        | _ => o
        end
  | OOther _ => o
  end.

(** If the object at [l] is an image that passes the filter, its [DATA] is
    a list, and the callable returns an accepted value for its first item. *)
Definition accepted_at (self : t) (σ : store) (l : loc) : Prop :=
  match is_image_dict σ l with
  | Some d =>
      if filtered_out self (TYPE d) then True
      else
        match DATA d with
        | CList (x :: _) => accepted x (function self x) = true
        | _ => False
        end
  | None => True
  end.

Definition all_accepted (self : t) (σ : store) (ls : list loc) : Prop :=
  Forall (accepted_at self σ) ls.

Section WithTorch.

(** [t[0] = v] on a tensor [t]: torch copies [v] into the first slice,
    broadcasting and converting it, or raises.  It yields the new contents
    of [t]. *)
Variable tensor_setitem0 : array -> value -> result array.

(** [c[0] = v] *)
Definition setitem0 (c : container) (v : value) : result container :=
  match c with
  | CList [] => Raise IndexError
  | CList (_ :: items) => Ok (CList (v :: items))
  | CTensor t =>
      match tensor_setitem0 t v with
      | Ok t' => Ok (CTensor t')
      | Raise e => Raise e
      end
  end.

(** The body of the loop of [apply_transform], for one value of the
    sample. *)
Definition body (self : t) (l : loc) : M unit :=
  fun σ =>
    match is_image_dict σ l with
    | None => (Ok tt, σ)
    | Some image_dict =>
        let image_type := TYPE image_dict in
        if filtered_out self image_type then (Ok tt, σ)
        else
          match getitem0 (DATA image_dict) with
          | Raise e => (Raise e, σ)
          | Ok function_arg =>
              let result := function self function_arg in
              match result with
              | VTensor r =>
                  if negb (bool_decide (dtype_of r = float32))
                  then (Raise (ValueError (message_dtype (dtype_of r))), σ)
                  else
                    match ndim function_arg with
                    | Raise e => (Raise e, σ)
                    | Ok function_arg_ndim =>
                        if negb (bool_decide (length (shape r) = function_arg_ndim))
                        then (Raise (ValueError
                                (message_ndim function_arg_ndim (length (shape r)))), σ)
                        else
                          match setitem0 (DATA image_dict) result with
                          | Raise e => (Raise e, σ)
                          | Ok data =>
                              (Ok tt, <[l := OImage (set_DATA image_dict data)]> σ)
                          end
                    end
              | _ => (Raise (ValueError (message_type result)), σ)
              end
          end
    end.

(** [Lambda.apply_transform] *)
Definition apply_transform (self : t) (sample : Sample) : M Sample :=
  fun σ =>
    match for_each (body self) (values sample) σ with
    | (Ok _, σ') => (Ok sample, σ')
    | (Raise e, σ') => (Raise e, σ')
    end.

End WithTorch.

End Lambda.

(** ** The data model of the specification *)

(** If the object at [l] is an image, its [DATA] is a sequence of length 1
    that holds a tensor with [Q]. *)
Definition has_one_tensor (Q : array -> Prop) (σ : store) (l : loc) : Prop :=
  match is_image_dict σ l with
  | Some d => match DATA d with CList [VTensor a] => Q a | _ => False end
  | None => True
  end.

(** Every value of the sample is such. *)
Definition one_tensor_with (Q : array -> Prop) (sample : Sample) (σ : store) : Prop :=
  Forall (has_one_tensor Q σ) (values sample).

Definition four_dimensions (a : array) : Prop := length (shape a) = 4%nat.

Definition one_channel (a : array) : Prop := shape a !! 0%nat = Some 1%nat.

(** The invariant the specification gives for the images of a sample:
    [DATA] is a sequence of length 1 that holds a tensor with 4 dimensions,
    the first of them, the channels, of size 1. *)
Definition data_model (σ : store) (sample : Sample) : Prop :=
  one_tensor_with (fun a => four_dimensions a /\ one_channel a) sample σ.

(** The part of it that does not speak of the size of the channels. *)
Definition four_dimensional (σ : store) (sample : Sample) : Prop :=
  one_tensor_with four_dimensions sample σ.

(** If the object at [l] is an image, the first item of its [DATA] is a
    tensor of 32-bit floats. *)
Definition holds_float32_tensor (σ : store) (l : loc) : Prop :=
  match is_image_dict σ l with
  | Some d =>
      match DATA d with
      | CList (VTensor a :: _) => dtype_of a = float32
      | _ => False
      end
  | None => True
  end.

(** If the object at [l] is an image, its [DATA] is a tensor: an array with
    [Q] and a first dimension of size 1 before its own. *)
Definition unsqueezed_at (Q : array -> Prop) (σ : store) (l : loc) : Prop :=
  forall d, is_image_dict σ l = Some d ->
    exists a, DATA d = CTensor (mkArray (dtype_of a) (1%nat :: shape a) (elements a))
      /\ Q a.

(** These predicates can be decided by computation. *)
Global Instance has_one_tensor_dec (Q : array -> Prop) `{!forall a, Decision (Q a)}
    (σ : store) (l : loc) : Decision (has_one_tensor Q σ l).
Proof. unfold has_one_tensor. repeat case_match; apply _. Defined.

Global Instance four_dimensions_dec (a : array) : Decision (four_dimensions a).
Proof. unfold four_dimensions. apply _. Defined.

Global Instance one_channel_dec (a : array) : Decision (one_channel a).
Proof. unfold one_channel. apply _. Defined.

Global Instance data_model_dec (σ : store) (sample : Sample) :
  Decision (data_model σ sample).
Proof. unfold data_model, one_tensor_with. apply _. Defined.

Global Instance four_dimensional_dec (σ : store) (sample : Sample) :
  Decision (four_dimensional σ sample).
Proof. unfold four_dimensional, one_tensor_with. apply _. Defined.

Global Instance holds_float32_tensor_dec (σ : store) (l : loc) :
  Decision (holds_float32_tensor σ l).
Proof. unfold holds_float32_tensor. repeat case_match; apply _. Defined.

Global Instance accepted_at_dec (self : Lambda.t) (σ : store) (l : loc) :
  Decision (Lambda.accepted_at self σ l).
Proof. unfold Lambda.accepted_at. repeat case_match; apply _. Defined.

Global Instance all_accepted_dec (self : Lambda.t) (σ : store) (ls : list loc) :
  Decision (Lambda.all_accepted self σ ls).
Proof. unfold Lambda.all_accepted. apply _. Defined.

(** A callable that returns one channel when it is given one channel. *)
Definition keeps_one_channel (f : value -> value) : Prop :=
  forall a r, f (VTensor a) = VTensor r ->
    shape a !! 0%nat = Some 1%nat -> shape r !! 0%nat = Some 1%nat.

(** What the two transforms may do to a store: nothing is added or removed,
    what is no image stays as it is, and an image stays an image of the
    same [TYPE]. *)
Definition retouched (σ σ' : store) : Prop :=
  forall l,
    match σ !! l with
    | Some (OImage d) => exists d', σ' !! l = Some (OImage d') /\ TYPE d' = TYPE d
    | o => σ' !! l = o
    end.

(** The outcome of a transform that was given [sample] in the store [σ]:
    it returns that sample or raises, and the store it leaves is the store
    [σ] retouched, with every object the sample does not name as it was. *)
Definition respects_frame (sample : Sample) (σ : store)
    (outcome : result Sample * store) : Prop :=
  (outcome.1 = Ok sample \/ exists e, outcome.1 = Raise e)
  /\ (forall l v, σ !! l = Some (OOther v) -> outcome.2 !! l = Some (OOther v))
  /\ (forall l d, σ !! l = Some (OImage d) ->
        exists d', outcome.2 !! l = Some (OImage d') /\ TYPE d' = TYPE d)
  /\ (forall l, σ !! l = None -> outcome.2 !! l = None)
  /\ (forall l, l ∉ values sample -> outcome.2 !! l = σ !! l).

(** ** Examples *)

(** A store with an intensity image at 0, a label image at 1 and a string
    at 2, and the sample that names them. *)
Definition one_voxel (bits : Z) : array := mkArray float32 [1; 1; 1; 1]%nat [bits].

Definition identity4 : value := VNdarray (mkArray float64 [4; 4]%nat []).

Definition example_store : store :=
  <[0%nat := OImage (mkImageDict "intensity" (CList [VTensor (one_voxel 5)]) identity4)]>
  (<[1%nat := OImage (mkImageDict "label" (CList [VTensor (one_voxel 1)]) identity4)]>
  (<[2%nat := OOther (VOpaque "str")]> ∅)).

Definition example_sample : Sample := [("mri", 0%nat); ("seg", 1%nat); ("name", 2%nat)].

(** [lambda x: torch.cat([x, x])]: two channels where there was one. *)
Definition cat_twice (v : value) : value :=
  match v with
  | VTensor a =>
      VTensor (mkArray (dtype_of a)
                 (match shape a with [] => [] | n :: rest => (n + n)%nat :: rest end)
                 (elements a ++ elements a))
  | _ => v
  end.

(** [lambda x: torch.zeros_like(x)] *)
Definition zeros_like (v : value) : value :=
  match v with
  | VTensor a => VTensor (mkArray (dtype_of a) (shape a) (const 0 <$> elements a))
  | _ => v
  end.

(** [lambda x: x.double()] on the label image, [zeros_like] elsewhere. *)
Definition double_ones (v : value) : value :=
  match v with
  | VTensor a =>
      if bool_decide (elements a = [1])
      then VTensor (mkArray float64 (shape a) (elements a))
      else zeros_like v
  | _ => v
  end.

(** A stand-in for the assignment to the first slice of a tensor: the
    examples never reach it. *)
Definition refuse_setitem0 (t : array) (v : value) : result array := Raise RuntimeError.

(** Stand-ins for SimpleITK in the examples: the image is the array, the
    conversion back drops the first dimension, and the bounds function
    returns the image it is given. *)
Definition example_nib_to_sitk (data affine : value) : result array :=
  match data with
  | VTensor a => Ok a
  | _ => Raise TypeError
  end.

Definition example_sitk_to_nib (image : array) : result (value * value) :=
  Ok (VNdarray (mkArray (dtype_of image) (drop 1 (shape image)) (elements image)),
      identity4).

Definition example_bounds_function
  : result (array -> list Z -> list Z -> result array) :=
  Ok (fun image low high => Ok image).

(** The example store after [zeros_like] has been written to the image at
    0. *)
Definition example_store_zeroed : store :=
  <[0%nat := OImage (mkImageDict "intensity" (CList [VTensor (one_voxel 0)]) identity4)]>
    example_store.

(** ** Further definitions *)

(** The [bounds_function] property of the [BoundsTransform] class itself,
    which no subclass has overridden: reading it raises. *)
Definition base_bounds_function {sitk_image : Type}
  : result (sitk_image -> list Z -> list Z -> result sitk_image) :=
  Raise NotImplementedError.

(** [l0, h0, l1, h1, ...] from [l0, l1, ...] and [h0, h1, ...]. *)
Fixpoint interleave {A : Type} (low high : list A) : list A :=
  match low, high with
  | l :: low', h :: high' => l :: h :: interleave low' high'
  | _, _ => []
  end.

(** What one iteration of [BoundsTransform.apply_transform] computes from
    an image before it writes: the first item of [DATA] and [AFFINE] are
    converted, the bounds function is read and called, its result is
    converted back, and the voxel array is taken as a tensor. *)
Definition Bounds_converted (sitk_image : Type)
    (nib_to_sitk : value -> value -> result sitk_image)
    (sitk_to_nib : sitk_image -> result (value * value))
    (bounds_function : result (sitk_image -> list Z -> list Z -> result sitk_image))
    (low high : list Z) (d : ImageDict) : result (array * value) :=
  match getitem0 (DATA d) with
  | Raise e => Raise e
  | Ok data0 =>
      match nib_to_sitk data0 (AFFINE d) with
      | Raise e => Raise e
      | Ok image =>
          match bounds_function with
          | Raise e => Raise e
          | Ok f =>
              match f image low high with
              | Raise e => Raise e
              | Ok result =>
                  match sitk_to_nib result with
                  | Raise e => Raise e
                  | Ok (data, affine) =>
                      match BoundsTransform.from_numpy data with
                      | Raise e => Raise e
                      | Ok a => Ok (a, affine)
                      end
                  end
              end
          end
      end
  end.

(** If the object at [l] is an image, that computation returns for it. *)
Definition Bounds_converts_at (sitk_image : Type)
    (nib_to_sitk : value -> value -> result sitk_image)
    (sitk_to_nib : sitk_image -> result (value * value))
    (bounds_function : result (sitk_image -> list Z -> list Z -> result sitk_image))
    (low high : list Z) (σ : store) (l : loc) : Prop :=
  match is_image_dict σ l with
  | Some d =>
      match Bounds_converted sitk_image nib_to_sitk sitk_to_nib bounds_function
              low high d with
      | Ok _ => True
      | Raise _ => False
      end
  | None => True
  end.

Global Instance Bounds_converts_at_dec (sitk_image : Type)
    (nib_to_sitk : value -> value -> result sitk_image)
    (sitk_to_nib : sitk_image -> result (value * value))
    (bounds_function : result (sitk_image -> list Z -> list Z -> result sitk_image))
    (low high : list Z) (σ : store) (l : loc) :
  Decision (Bounds_converts_at sitk_image nib_to_sitk sitk_to_nib bounds_function
              low high σ l).
Proof. unfold Bounds_converts_at. repeat case_match; apply _. Defined.

(** If the object at [l] is an image, its [TYPE] is none of [types]. *)
Definition no_type_among (types : list string) (σ : store) (l : loc) : Prop :=
  match is_image_dict σ l with
  | Some d => TYPE d ∉ types
  | None => True
  end.

Global Instance no_type_among_dec (types : list string) (σ : store) (l : loc) :
  Decision (no_type_among types σ l).
Proof. unfold no_type_among. case_match; apply _. Defined.

(** If the object at [l] is an image, its [TYPE] is one of [types]. *)
Definition type_among (types : list string) (σ : store) (l : loc) : Prop :=
  match is_image_dict σ l with
  | Some d => TYPE d ∈ types
  | None => True
  end.

Global Instance type_among_dec (types : list string) (σ : store) (l : loc) :
  Decision (type_among types σ l).
Proof. unfold type_among. case_match; apply _. Defined.

(** What [Lambda.apply_transform] may do to an image: [TYPE] and [AFFINE]
    stay, and [DATA] stays a list of the same length with the same items
    after the first, or stays a tensor. *)
Definition same_but_first (d d' : ImageDict) : Prop :=
  TYPE d' = TYPE d /\ AFFINE d' = AFFINE d
  /\ match DATA d, DATA d' with
     | CList items, CList items' =>
         length items' = length items /\ drop 1 items' = drop 1 items
     | CTensor _, CTensor _ => True
     | _, _ => False
     end.

(** The same for a store: no object appears or goes, what is no image stays
    as it is, and an image changes as [same_but_first] allows. *)
Definition first_items_rewritten (σ σ' : store) : Prop :=
  forall l,
    match σ !! l with
    | Some (OImage d) => exists d', σ' !! l = Some (OImage d') /\ same_but_first d d'
    | o => σ' !! l = o
    end.

(** An array that has as many elements as its shape says. *)
Definition well_formed (a : array) : Prop :=
  length (elements a) = foldr Nat.mul 1%nat (shape a).

(** [lambda x: torch.ones_like(x)]: every element becomes the bit
    pattern of 1.0. *)
Definition ones_like (v : value) : value :=
  match v with
  | VTensor a => VTensor (mkArray (dtype_of a) (shape a) (const 1065353216 <$> elements a))
  | _ => v
  end.

(** A conversion that refuses the label image of the example store. *)
Definition picky_nib_to_sitk (data affine : value) : result array :=
  match data with
  | VTensor a => if bool_decide (elements a = [1]) then Raise RuntimeError else Ok a
  | _ => Raise TypeError
  end.

(** The example store after [BoundsTransform.apply_transform], with the
    stand-ins above, has written the image at 0. *)
Definition example_store_rewritten : store :=
  <[0%nat := OImage (mkImageDict "intensity" (CTensor (one_voxel 5)) identity4)]>
    example_store.

(** A store with an image whose [DATA] is an empty list. *)
Definition empty_data_store : store :=
  <[0%nat := OImage (mkImageDict "intensity" (CList []) identity4)]> ∅.

(** * Properties *)

(** ** parse_bounds *)

Lemma parse_bounds_int (n : Z) :
  BoundsTransform.parse_bounds (BoundsTransform.BInt n) = Ok [n; n; n; n; n; n].
Proof. reflexivity. Qed.

Lemma parse_bounds_six (items : list Z) :
  length items = 6%nat ->
  BoundsTransform.parse_bounds (BoundsTransform.BSeq items) = Ok items.
Proof.
  intros Hlen. unfold BoundsTransform.parse_bounds. cbn [BoundsTransform.as_tuple].
  by rewrite Hlen.
Qed.

Lemma np_discover_int64 (x : Z) :
  BoundsTransform.int64_min <= x <= BoundsTransform.int64_max ->
  BoundsTransform.np_discover x = BoundsTransform.np_int64.
Proof.
  intros [Hlo Hhi]. unfold BoundsTransform.np_discover.
  apply Z.leb_le in Hlo, Hhi. by rewrite Hlo, Hhi.
Qed.

(** Three integers that all fit [int64] are each duplicated in place. *)
Lemma parse_bounds_three_int64 (a b c : Z) :
  BoundsTransform.int64_min <= a <= BoundsTransform.int64_max ->
  BoundsTransform.int64_min <= b <= BoundsTransform.int64_max ->
  BoundsTransform.int64_min <= c <= BoundsTransform.int64_max ->
  BoundsTransform.parse_bounds (BoundsTransform.BSeq [a; b; c])
  = Ok [a; a; b; b; c; c].
Proof.
  intros Ha Hb Hc.
  unfold BoundsTransform.parse_bounds, BoundsTransform.np_repeat,
    BoundsTransform.np_asarray, BoundsTransform.np_result_dtype.
  cbn [BoundsTransform.as_tuple length Nat.eqb foldl].
  by rewrite !np_discover_int64.
Qed.

(** C1, at a 3-tuple that mixes an integer above [int64] with smaller ones:
    numpy stores the tuple as [float64], and what comes back is the rounded
    [2^63], not the [2^63 + 1] that was given. *)
Theorem parse_bounds_three_rounds :
  BoundsTransform.parse_bounds (BoundsTransform.BSeq [2 ^ 63 + 1; 1; 1])
  = Ok [2 ^ 63; 2 ^ 63; 1; 1; 1; 1]
  /\ [2 ^ 63; 2 ^ 63; 1; 1; 1; 1] <> [2 ^ 63 + 1; 2 ^ 63 + 1; 1; 1; 1; 1].
Proof. split; [by vm_compute | by vm_compute]. Qed.

Lemma np_repeat_length (t : list Z) (k : nat) :
  length (BoundsTransform.np_repeat t k) = (length t * k)%nat.
Proof.
  unfold BoundsTransform.np_repeat.
  assert (Hlen : length (BoundsTransform.np_asarray t) = length t).
  { unfold BoundsTransform.np_asarray.
    destruct (BoundsTransform.np_result_dtype t); by rewrite ?length_fmap. }
  rewrite <- Hlen. clear Hlen.
  induction (BoundsTransform.np_asarray t) as [|x l IH]; [done|].
  rewrite bind_cons, length_app, length_replicate, IH. simpl. lia.
Qed.

(** What [parse_bounds] returns has six items. *)
Lemma parse_bounds_length (bp : BoundsTransform.TypeBounds) (parsed : list Z) :
  BoundsTransform.parse_bounds bp = Ok parsed -> length parsed = 6%nat.
Proof.
  unfold BoundsTransform.parse_bounds.
  destruct (length (BoundsTransform.as_tuple bp) =? 6)%nat eqn:H6.
  { intros [= <-]. by apply Nat.eqb_eq. }
  destruct (length (BoundsTransform.as_tuple bp) =? 1)%nat eqn:H1.
  { intros [= <-]. apply Nat.eqb_eq in H1.
    destruct (BoundsTransform.as_tuple bp) as [|x [|]]; by simplify_eq/=. }
  destruct (length (BoundsTransform.as_tuple bp) =? 3)%nat eqn:H3; [|done].
  intros [= <-]. apply Nat.eqb_eq in H3. by rewrite np_repeat_length, H3.
Qed.

(** C4: a bounds specification whose tuple has a length other than 1, 3
    and 6 makes the constructor raise [ValueError], with a message that ends
    in the [repr] of that tuple; no transform object exists afterwards, so
    that nothing is left to fail when a transform is applied: every object
    the constructor does return holds six bounds. *)
Theorem init_rejects_other_lengths (bp : BoundsTransform.TypeBounds) :
  length (BoundsTransform.as_tuple bp) <> 1%nat ->
  length (BoundsTransform.as_tuple bp) <> 3%nat ->
  length (BoundsTransform.as_tuple bp) <> 6%nat ->
  BoundsTransform.init bp
  = Raise (ValueError
      ("Bounds parameter must be an integer or a tuple of 3 or 6 integers, not "
       +:+ BoundsTransform.tuple_repr (BoundsTransform.as_tuple bp)))
  /\ (forall self, BoundsTransform.init bp <> Ok self)
  /\ (forall bp' self, BoundsTransform.init bp' = Ok self ->
        length (BoundsTransform.bounds_parameters self) = 6%nat).
Proof.
  intros H1 H3 H6.
  assert (Hinit : BoundsTransform.init bp
    = Raise (ValueError (BoundsTransform.bounds_message_prefix
        +:+ BoundsTransform.tuple_repr (BoundsTransform.as_tuple bp)))).
  { unfold BoundsTransform.init, BoundsTransform.parse_bounds.
    apply Nat.eqb_neq in H1, H3, H6. by rewrite H6, H1, H3. }
  split; [exact Hinit|]. split.
  - intros self. by rewrite Hinit.
  - intros bp' self. unfold BoundsTransform.init.
    destruct (BoundsTransform.parse_bounds bp') as [parsed|e] eqn:Hp; [|done].
    intros [= <-]. cbn. by eapply parse_bounds_length.
Qed.

Lemma init_rejects_other_lengths_witness :
  BoundsTransform.init (BoundsTransform.BSeq [1; 2])
  = Raise (ValueError
      "Bounds parameter must be an integer or a tuple of 3 or 6 integers, not (1, 2)")
  /\ BoundsTransform.init (BoundsTransform.BSeq [1; 2; 3; 4])
  = Raise (ValueError
      "Bounds parameter must be an integer or a tuple of 3 or 6 integers, not (1, 2, 3, 4)").
Proof.
  split.
  - apply (init_rejects_other_lengths (BoundsTransform.BSeq [1; 2])); simpl; lia.
  - apply (init_rejects_other_lengths (BoundsTransform.BSeq [1; 2; 3; 4])); simpl; lia.
Defined.

(** ** The loop *)

Lemma is_image_dict_Some (σ : store) (l : loc) (d : ImageDict) :
  is_image_dict σ l = Some d <-> σ !! l = Some (OImage d).
Proof.
  unfold is_image_dict. destruct (σ !! l) as [[d'|v]|]; naive_solver.
Qed.

Lemma for_each_cons {A : Type} (body : A -> M unit) (x : A) (xs : list A) (σ : store) :
  for_each body (x :: xs) σ
  = match body x σ with
    | (Ok _, σ') => for_each body xs σ'
    | (Raise e, σ') => (Raise e, σ')
    end.
Proof. reflexivity. Qed.

Lemma for_each_app {A : Type} (body : A -> M unit) (xs ys : list A) (σ : store) :
  for_each body (xs ++ ys) σ
  = match for_each body xs σ with
    | (Ok _, σ') => for_each body ys σ'
    | (Raise e, σ') => (Raise e, σ')
    end.
Proof.
  revert σ. induction xs as [|x xs IH]; intros σ; [done|].
  cbn. destruct (body x σ) as [[[]|e] σ1]; [apply IH|done].
Qed.

(** A relation between stores that every iteration respects, and that is
    reflexive and transitive, holds across the whole loop. *)
Lemma for_each_rel {A : Type} (R : relation store) (body : A -> M unit) :
  Reflexive R -> Transitive R ->
  (forall x σ, R σ (body x σ).2) ->
  forall xs σ, R σ (for_each body xs σ).2.
Proof.
  intros Hrefl Htrans Hbody xs.
  induction xs as [|x xs IH]; intros σ; [apply Hrefl|].
  cbn. specialize (Hbody x σ).
  destruct (body x σ) as [[[]|e] σ1]; cbn in *; [|done].
  etrans; [exact Hbody|apply IH].
Qed.

(** When an iteration only writes the object it is given, the loop leaves
    alone the objects that are not among those it visits. *)
Lemma for_each_lookup_notin (body : loc -> M unit) :
  (forall x σ l, l <> x -> (body x σ).2 !! l = σ !! l) ->
  forall xs σ l, l ∉ xs -> (for_each body xs σ).2 !! l = σ !! l.
Proof.
  intros Hbody xs.
  induction xs as [|x xs IH]; intros σ l Hl; [done|].
  apply not_elem_of_cons in Hl as [Hne Hl].
  cbn. specialize (Hbody x σ l Hne).
  destruct (body x σ) as [[[]|e] σ1]; cbn in *; [|done].
  by rewrite IH.
Qed.

Global Instance retouched_refl : Reflexive retouched.
Proof. intros σ l. destruct (σ !! l) as [[d|v]|]; eauto. Qed.

Global Instance retouched_trans : Transitive retouched.
Proof.
  intros σ1 σ2 σ3 H12 H23 l. specialize (H12 l). specialize (H23 l).
  destruct (σ1 !! l) as [[d|v]|].
  - destruct H12 as (d' & Hd' & Ht). rewrite Hd' in H23.
    destruct H23 as (d'' & Hd'' & Ht'). exists d''. split; [done|congruence].
  - by rewrite H12 in H23.
  - by rewrite H12 in H23.
Qed.

(** Overwriting an image by an image of the same [TYPE]. *)
Lemma retouched_insert (σ : store) (l : loc) (d d' : ImageDict) :
  σ !! l = Some (OImage d) -> TYPE d' = TYPE d ->
  retouched σ (<[l := OImage d']> σ).
Proof.
  intros Hl Ht l'. destruct (decide (l' = l)) as [->|Hne].
  - rewrite Hl, lookup_insert_eq. eauto.
  - rewrite lookup_insert_ne by done. destruct (σ !! l') as [[d0|v]|]; eauto.
Qed.

(** ** Lambda: one iteration *)

Section LambdaBody.

Variable tensor_setitem0 : array -> value -> result array.
Variable self : Lambda.t.

Local Abbreviation body := (Lambda.body tensor_setitem0 self).

(** An iteration that raises has written nothing: the three checks and the
    indexing all come before the one write. *)
Lemma Lambda_body_raise (l : loc) (σ σ' : store) (e : exn) :
  body l σ = (Raise e, σ') -> σ' = σ.
Proof.
  unfold Lambda.body. intros H.
  repeat case_match; by simplify_eq.
Qed.

(** An iteration leaves the store as it is, or replaces [DATA] of the image
    it was given. *)
Lemma Lambda_body_store (l : loc) (σ : store) :
  (body l σ).2 = σ
  \/ exists d c, σ !! l = Some (OImage d)
       /\ (body l σ).2 = <[l := OImage (set_DATA d c)]> σ.
Proof.
  unfold Lambda.body.
  destruct (is_image_dict σ l) as [d|] eqn:Hd; [|by left].
  apply is_image_dict_Some in Hd.
  repeat case_match; simplify_eq; cbn; try (by left).
  all: right; eexists _, _; split; [exact Hd|reflexivity].
Qed.

Lemma Lambda_body_lookup_ne (x : loc) (σ : store) (l : loc) :
  l <> x -> (body x σ).2 !! l = σ !! l.
Proof.
  intros Hne. destruct (Lambda_body_store x σ) as [->|(d & c & _ & ->)]; [done|].
  by rewrite lookup_insert_ne.
Qed.

Lemma Lambda_body_retouched (x : loc) (σ : store) : retouched σ (body x σ).2.
Proof.
  destruct (Lambda_body_store x σ) as [->|(d & c & Hd & ->)]; [reflexivity|].
  by apply (retouched_insert σ x d).
Qed.

(** An iteration on what is no image, or on an image whose type the filter
    excludes, does nothing. *)
Lemma Lambda_body_skip (l : loc) (σ : store) :
  match is_image_dict σ l with
  | None => True
  | Some d => Lambda.filtered_out self (TYPE d) = true
  end ->
  body l σ = (Ok tt, σ).
Proof.
  unfold Lambda.body.
  destruct (is_image_dict σ l) as [d|]; [|done]. by intros ->.
Qed.

(** An iteration on an image that passes the filter, whose [DATA] is a list,
    and for whose first item the callable returns an accepted value. *)
Lemma Lambda_body_accepted (l : loc) (σ : store) (d : ImageDict)
    (x : value) (items : list value) :
  is_image_dict σ l = Some d ->
  Lambda.filtered_out self (TYPE d) = false ->
  DATA d = CList (x :: items) ->
  Lambda.accepted x (Lambda.function self x) = true ->
  body l σ
  = (Ok tt, <[l := OImage (set_DATA d (CList (Lambda.function self x :: items)))]> σ).
Proof.
  unfold Lambda.body, Lambda.accepted. intros -> -> -> Hacc. cbn.
  destruct (Lambda.function self x) as [r| |]; [|done..].
  destruct (ndim x) as [n|]; [|done].
  apply andb_prop in Hacc as [Hd Hn].
  by rewrite Hd, Hn.
Qed.

(** The same iteration when the value is not accepted: it raises
    [ValueError] and writes nothing. *)
Lemma Lambda_body_rejected (l : loc) (σ : store) (d : ImageDict)
    (x : value) (items : list value) (n : nat) :
  is_image_dict σ l = Some d ->
  Lambda.filtered_out self (TYPE d) = false ->
  DATA d = CList (x :: items) ->
  ndim x = Ok n ->
  Lambda.accepted x (Lambda.function self x) = false ->
  exists message, body l σ = (Raise (ValueError message), σ).
Proof.
  unfold Lambda.body, Lambda.accepted. intros -> -> -> Hn Hacc. cbn.
  rewrite Hn in Hacc |- *.
  destruct (Lambda.function self x) as [r| |]; [|by eauto..].
  destruct (bool_decide (dtype_of r = float32)); cbn in *; [|by eauto].
  rewrite Hacc. cbn. eauto.
Qed.

Lemma Lambda_applied_accepted (l : loc) (σ : store) (d : ImageDict)
    (x : value) (items : list value) :
  σ !! l = Some (OImage d) ->
  Lambda.filtered_out self (TYPE d) = false ->
  DATA d = CList (x :: items) ->
  Lambda.applied self <$> σ !! l
  = Some (OImage (set_DATA d (CList (Lambda.function self x :: items)))).
Proof. intros -> Hf Hd. cbn. by rewrite Hf, Hd. Qed.

Lemma Lambda_applied_skip (l : loc) (σ : store) :
  match is_image_dict σ l with
  | None => True
  | Some d => Lambda.filtered_out self (TYPE d) = true
  end ->
  Lambda.applied self <$> σ !! l = σ !! l.
Proof.
  unfold is_image_dict. destruct (σ !! l) as [[d|v]|]; cbn; [|done..].
  by intros ->.
Qed.

End LambdaBody.

(** ** The predicates of the data model, spelled out *)

Lemma all_accepted_spec (self : Lambda.t) (σ : store) (ls : list loc) :
  Lambda.all_accepted self σ ls ->
  forall l d, l ∈ ls -> is_image_dict σ l = Some d ->
    Lambda.filtered_out self (TYPE d) = false ->
    exists x items, DATA d = CList (x :: items)
      /\ Lambda.accepted x (Lambda.function self x) = true.
Proof.
  intros Hall l d Hl Hd Hf.
  pose proof (proj1 (Forall_forall _ _) Hall l Hl) as Hat.
  unfold Lambda.accepted_at in Hat. rewrite Hd, Hf in Hat.
  destruct (DATA d) as [[|x items]|]; [done| |done]. eauto.
Qed.

Lemma one_tensor_with_spec (Q : array -> Prop) (sample : Sample) (σ : store) :
  one_tensor_with Q sample σ <->
  forall l d, l ∈ values sample -> is_image_dict σ l = Some d ->
    exists a, DATA d = CList [VTensor a] /\ Q a.
Proof.
  unfold one_tensor_with. rewrite Forall_forall. unfold has_one_tensor.
  split.
  - intros H l d Hl Hd. specialize (H l Hl). rewrite Hd in H.
    destruct (DATA d) as [[|[a| |] [|]]|]; try done. eauto.
  - intros H l Hl. destruct (is_image_dict σ l) as [d|] eqn:Hd; [|done].
    by destruct (H l d Hl Hd) as (a & -> & Ha).
Qed.

(** ** Lambda: the whole loop *)

Section LambdaLoop.

Variable tensor_setitem0 : array -> value -> result array.
Variable self : Lambda.t.

Local Abbreviation body := (Lambda.body tensor_setitem0 self).

(** Over objects that are pairwise distinct and all accepted, the loop ends
    without an exception, and has done to each of them what the
    specification says, and nothing to any other object. *)
Lemma Lambda_loop_applied (ls : list loc) :
  forall σ, NoDup ls ->
    (forall l d, l ∈ ls -> is_image_dict σ l = Some d ->
       Lambda.filtered_out self (TYPE d) = false ->
       exists x items, DATA d = CList (x :: items)
         /\ Lambda.accepted x (Lambda.function self x) = true) ->
    exists σ', for_each body ls σ = (Ok tt, σ')
      /\ forall l, σ' !! l
           = if bool_decide (l ∈ ls) then Lambda.applied self <$> σ !! l else σ !! l.
Proof.
  induction ls as [|x ls IH]; intros σ Hnd Hacc.
  { exists σ. split; [done|]. intros l. by rewrite bool_decide_eq_false_2 by set_solver. }
  apply NoDup_cons in Hnd as [Hx Hnd].
  assert (Hstep : exists σ1, body x σ = (Ok tt, σ1)
            /\ σ1 !! x = Lambda.applied self <$> σ !! x).
  { destruct (is_image_dict σ x) as [d|] eqn:Hd.
    - destruct (Lambda.filtered_out self (TYPE d)) eqn:Hf.
      + exists σ. split.
        * apply Lambda_body_skip. by rewrite Hd.
        * symmetry. apply Lambda_applied_skip. by rewrite Hd.
      + destruct (Hacc x d) as (v & items & HD & Hv); [set_solver|done..|].
        eexists. split.
        * by eapply Lambda_body_accepted.
        * rewrite lookup_insert_eq. symmetry.
          apply Lambda_applied_accepted; [by apply is_image_dict_Some|done..].
    - exists σ. split.
      + apply Lambda_body_skip. by rewrite Hd.
      + symmetry. apply Lambda_applied_skip. by rewrite Hd. }
  destruct Hstep as (σ1 & Hbody & Hσ1x).
  assert (Hσ1 : forall l, l <> x -> σ1 !! l = σ !! l).
  { intros l Hl. pose proof (Lambda_body_lookup_ne tensor_setitem0 self x σ l Hl) as H.
    rewrite Hbody in H. exact H. }
  destruct (IH σ1 Hnd) as (σ' & Hloop & Hσ').
  { intros l d Hl Hd. apply (Hacc l d); [set_solver|].
    unfold is_image_dict in *. rewrite <- (Hσ1 l); [done|]. intros ->. done. }
  exists σ'. split.
  { by rewrite for_each_cons, Hbody. }
  intros l. rewrite Hσ'. destruct (decide (l = x)) as [->|Hne].
  - rewrite (bool_decide_eq_false_2 (x ∈ ls)) by done.
    by rewrite bool_decide_eq_true_2 by set_solver.
  - rewrite (Hσ1 l Hne).
    destruct (decide (l ∈ ls)) as [Hin|Hout].
    + assert (l ∈ x :: ls) by (by apply elem_of_cons; right).
      by rewrite !bool_decide_eq_true_2.
    + assert (l ∉ x :: ls) by (by apply not_elem_of_cons).
      by rewrite !bool_decide_eq_false_2.
Qed.

(** C5: on a sample that names every object once, and whose images that
    pass the filter hold an accepted first item, [apply_transform] returns
    the sample, and in the store it leaves
    - an image of the sample whose [TYPE] passes the filter (any [TYPE] when
      [types_to_apply] is [None]) has the first item of [DATA] replaced by
      what the callable returns for it;
    - an image whose [TYPE] the filter excludes is as it was;
    - what is no image is as it was, and so is what the sample does not
      name. *)
Theorem Lambda_applies_to_matching_images (sample : Sample) (σ : store) :
  NoDup (values sample) ->
  Lambda.all_accepted self σ (values sample) ->
  exists σ',
    Lambda.apply_transform tensor_setitem0 self sample σ = (Ok sample, σ')
    /\ (forall l d x items,
          l ∈ values sample -> σ !! l = Some (OImage d) ->
          match Lambda.types_to_apply self with
          | None => True
          | Some types => TYPE d ∈ types
          end ->
          DATA d = CList (x :: items) ->
          σ' !! l = Some (OImage (set_DATA d (CList (Lambda.function self x :: items)))))
    /\ (forall l d types,
          σ !! l = Some (OImage d) ->
          Lambda.types_to_apply self = Some types -> TYPE d ∉ types ->
          σ' !! l = Some (OImage d))
    /\ (forall l, is_image_dict σ l = None -> σ' !! l = σ !! l)
    /\ (forall l, l ∉ values sample -> σ' !! l = σ !! l).
Proof.
  intros Hnd Hacc.
  destruct (Lambda_loop_applied (values sample) σ Hnd (all_accepted_spec _ _ _ Hacc))
    as (σ' & Hloop & Hσ').
  exists σ'. split.
  { unfold Lambda.apply_transform. by rewrite Hloop. }
  split; [|split; [|split]].
  - intros l d x items Hl Hd Hty HD. rewrite Hσ', bool_decide_eq_true_2 by done.
    apply Lambda_applied_accepted; [done| |done].
    unfold Lambda.filtered_out. destruct (Lambda.types_to_apply self); [|done].
    by rewrite bool_decide_eq_true_2.
  - intros l d types Hd Hty Hnot. rewrite Hσ'.
    assert (Hskip : Lambda.applied self <$> σ !! l = σ !! l).
    { apply Lambda_applied_skip. apply is_image_dict_Some in Hd. rewrite Hd.
      unfold Lambda.filtered_out. rewrite Hty. by rewrite bool_decide_eq_false_2. }
    rewrite Hskip, Hd. by destruct (bool_decide _).
  - intros l Hd. rewrite Hσ'.
    assert (Hskip : Lambda.applied self <$> σ !! l = σ !! l).
    { apply Lambda_applied_skip. by rewrite Hd. }
    rewrite Hskip. by destruct (bool_decide _).
  - intros l Hl. by rewrite Hσ', bool_decide_eq_false_2.
Qed.

(** C6: when the images before the one at [l] are accepted and the one at
    [l] is not, [apply_transform] raises [ValueError], and in the store it
    leaves every image before [l] that passes the filter holds what the
    callable returned for it: nothing is rolled back. *)
Theorem Lambda_keeps_earlier_writes (sample : Sample) (σ : store)
    (pre post : list loc) (l : loc) (d : ImageDict)
    (x : value) (items : list value) (n : nat) :
  values sample = pre ++ l :: post ->
  NoDup (pre ++ [l]) ->
  Lambda.all_accepted self σ pre ->
  is_image_dict σ l = Some d ->
  Lambda.filtered_out self (TYPE d) = false ->
  DATA d = CList (x :: items) ->
  ndim x = Ok n ->
  Lambda.accepted x (Lambda.function self x) = false ->
  exists message σ',
    Lambda.apply_transform tensor_setitem0 self sample σ
    = (Raise (ValueError message), σ')
    /\ (forall l' d' x' items',
          l' ∈ pre -> σ !! l' = Some (OImage d') ->
          Lambda.filtered_out self (TYPE d') = false ->
          DATA d' = CList (x' :: items') ->
          σ' !! l' = Some (OImage (set_DATA d' (CList (Lambda.function self x' :: items'))))).
Proof.
  intros Hvals Hnd Hacc Hd Hf HD Hn Hrej.
  apply NoDup_app in Hnd as (Hndpre & Hdisj & _).
  destruct (Lambda_loop_applied pre σ Hndpre (all_accepted_spec _ _ _ Hacc))
    as (σ1 & Hloop & Hσ1).
  assert (Hl : l ∉ pre) by (intros Hin; apply (Hdisj l Hin); set_solver).
  assert (Hd1 : is_image_dict σ1 l = Some d).
  { unfold is_image_dict in *. by rewrite Hσ1, bool_decide_eq_false_2. }
  destruct (Lambda_body_rejected tensor_setitem0 self l σ1 d x items n
              Hd1 Hf HD Hn Hrej) as (message & Hbody).
  exists message, σ1. split.
  - unfold Lambda.apply_transform. rewrite Hvals, for_each_app.
    by rewrite Hloop, for_each_cons, Hbody.
  - intros l' d' x' items' Hl' Hd' Hf' HD'.
    rewrite Hσ1, bool_decide_eq_true_2 by done.
    by apply Lambda_applied_accepted.
Qed.

(** C10: when the iteration on [l] raises, [apply_transform] raises the same
    exception and leaves the store exactly as it was when that iteration
    began; if [l] was not visited before, the object at [l], [DATA] and its
    first item included, is the one the transform was given. *)
Theorem Lambda_failing_image_untouched (sample : Sample) (σ σ1 σ2 : store)
    (pre post : list loc) (l : loc) (e : exn) :
  values sample = pre ++ l :: post ->
  for_each (Lambda.body tensor_setitem0 self) pre σ = (Ok tt, σ1) ->
  Lambda.body tensor_setitem0 self l σ1 = (Raise e, σ2) ->
  Lambda.apply_transform tensor_setitem0 self sample σ = (Raise e, σ1)
  /\ (l ∉ pre -> σ1 !! l = σ !! l).
Proof.
  intros Hvals Hpre Hbody.
  pose proof (Lambda_body_raise _ _ _ _ _ _ Hbody) as ->.
  split.
  - unfold Lambda.apply_transform.
    by rewrite Hvals, for_each_app, Hpre, for_each_cons, Hbody.
  - intros Hl.
    pose proof (for_each_lookup_notin (Lambda.body tensor_setitem0 self)
                  (Lambda_body_lookup_ne tensor_setitem0 self) pre σ l Hl) as H.
    by rewrite Hpre in H.
Qed.

(** C8: with the identity as the callable, on a sample whose images hold a
    tensor of 32-bit floats as the first item of [DATA], [apply_transform]
    raises nothing and returns the sample with the store as it was: every
    tensor is the one that was there. *)
Theorem Lambda_identity_changes_nothing (types : option (list string))
    (sample : Sample) (σ : store) :
  Forall (holds_float32_tensor σ) (values sample) ->
  Lambda.apply_transform tensor_setitem0 (Lambda.mk (fun x => x) types) sample σ
  = (Ok sample, σ).
Proof.
  intros Hall.
  assert (Hdata : forall l d, l ∈ values sample -> is_image_dict σ l = Some d ->
            exists a items, DATA d = CList (VTensor a :: items) /\ dtype_of a = float32).
  { intros l d Hl Hd. pose proof (proj1 (Forall_forall _ _) Hall l Hl) as Hat.
    unfold holds_float32_tensor in Hat. rewrite Hd in Hat.
    destruct (DATA d) as [[|[a| |] items]|]; try done. eauto. }
  clear Hall. unfold Lambda.apply_transform.
  enough (Hloop : for_each (Lambda.body tensor_setitem0 (Lambda.mk (fun x => x) types))
                    (values sample) σ = (Ok tt, σ)) by (by rewrite Hloop).
  induction (values sample) as [|x ls IH]; [done|].
  assert (Hbody : Lambda.body tensor_setitem0 (Lambda.mk (fun x => x) types) x σ
                  = (Ok tt, σ)).
  { destruct (is_image_dict σ x) as [d|] eqn:Hd.
    - destruct (Lambda.filtered_out (Lambda.mk (fun x => x) types) (TYPE d)) eqn:Hf.
      + apply Lambda_body_skip. by rewrite Hd.
      + destruct (Hdata x d) as (a & items & HD & Ha); [by left|done|].
        erewrite Lambda_body_accepted; [|done..|].
        * f_equal. apply insert_id. apply is_image_dict_Some in Hd.
          rewrite Hd. do 2 f_equal. destruct d. cbn in *. by subst.
        * cbn. rewrite Ha. by rewrite !bool_decide_eq_true_2.
    - apply Lambda_body_skip. by rewrite Hd. }
  rewrite for_each_cons, Hbody. apply IH.
  intros l d Hl. apply Hdata. by right.
Qed.

(** C3: for an image that [apply_transform] processes, with [x] of [n]
    dimensions as [DATA[0]], what the callable returns for [x] is checked in
    this order, and the first check that fails raises [ValueError] with a
    message that names what was expected and what was found, and leaves the
    store as it is:
    - it is a tensor: else the message names the two classes;
    - its elements are 32-bit floats: else the message names the two element
      types, whatever the number of dimensions;
    - it has [n] dimensions: else the message names the two numbers.
    When all three pass none of them raises, and the result is written as
    the first item of [DATA]. *)
Theorem Lambda_validation_order (l : loc) (σ : store) (d : ImageDict)
    (x : value) (n : nat) :
  is_image_dict σ l = Some d ->
  Lambda.filtered_out self (TYPE d) = false ->
  getitem0 (DATA d) = Ok x ->
  ndim x = Ok n ->
  ((forall r, Lambda.function self x <> VTensor r) ->
     Lambda.body tensor_setitem0 self l σ
     = (Raise (ValueError
          ("The returned value from the callable argument must be of type "
           +:+ "<class 'torch.Tensor'>" +:+ ", not "
           +:+ type_repr (Lambda.function self x))), σ))
  /\ (forall r, Lambda.function self x = VTensor r -> dtype_of r <> float32 ->
       Lambda.body tensor_setitem0 self l σ
       = (Raise (ValueError
            ("The data type of the returned value must be of type "
             +:+ "torch.float32" +:+ ", not "
             +:+ "torch." +:+ dtype_name (dtype_of r))), σ))
  /\ (forall r, Lambda.function self x = VTensor r -> dtype_of r = float32 ->
       length (shape r) <> n ->
       Lambda.body tensor_setitem0 self l σ
       = (Raise (ValueError
            ("The number of dimensions of the returned value must be "
             +:+ pretty n +:+ ", not " +:+ pretty (length (shape r)))), σ))
  /\ (forall r items, Lambda.function self x = VTensor r -> dtype_of r = float32 ->
       length (shape r) = n -> DATA d = CList (x :: items) ->
       Lambda.body tensor_setitem0 self l σ
       = (Ok tt, <[l := OImage (set_DATA d (CList (VTensor r :: items)))]> σ)).
Proof.
  intros Hd Hf Hx Hn. unfold Lambda.body. rewrite Hd, Hf, Hx. cbn. rewrite Hn.
  split; [|split; [|split]].
  - intros Hr. destruct (Lambda.function self x) as [r| |]; [by destruct (Hr r)|done..].
  - intros r -> Hdt. by rewrite bool_decide_eq_false_2.
  - intros r -> Hdt Hnd. rewrite bool_decide_eq_true_2 by done.
    by rewrite bool_decide_eq_false_2.
  - intros r items -> Hdt Hnd ->. by rewrite !bool_decide_eq_true_2.
Qed.

End LambdaLoop.

(** ** The frame of both transforms *)

Lemma retouched_frame (sample : Sample) (σ : store) (outcome : result Sample * store) :
  (outcome.1 = Ok sample \/ exists e, outcome.1 = Raise e) ->
  retouched σ outcome.2 ->
  (forall l, l ∉ values sample -> outcome.2 !! l = σ !! l) ->
  respects_frame sample σ outcome.
Proof.
  intros Hres Hret Hout. split; [done|].
  split; [|split; [|split; [|done]]].
  - intros l v Hl. specialize (Hret l). by rewrite Hl in Hret.
  - intros l d Hl. specialize (Hret l). by rewrite Hl in Hret.
  - intros l Hl. specialize (Hret l). by rewrite Hl in Hret.
Qed.

Section BoundsBody.

Variable sitk_image : Type.
Variable nib_to_sitk : value -> value -> result sitk_image.
Variable sitk_to_nib : sitk_image -> result (value * value).
Variable bounds_function :
  result (sitk_image -> list Z -> list Z -> result sitk_image).
Variables low high : list Z.

Local Abbreviation body :=
  (BoundsTransform.body sitk_image nib_to_sitk sitk_to_nib bounds_function low high).

(** An iteration raises and leaves the store as it is, or skips what is no
    image, or returns after it has replaced [DATA] of the image by a tensor
    with a new first dimension of size 1, and [AFFINE]. *)
Lemma Bounds_body_cases (l : loc) (σ : store) :
  (exists e, body l σ = (Raise e, σ))
  \/ (is_image_dict σ l = None /\ body l σ = (Ok tt, σ))
  \/ (exists d a affine, σ !! l = Some (OImage d)
        /\ body l σ
           = (Ok tt, <[l := OImage (set_AFFINE
                                      (set_DATA d (CTensor (BoundsTransform.unsqueeze0 a)))
                                      affine)]> σ)).
Proof.
  unfold BoundsTransform.body.
  destruct (is_image_dict σ l) as [d|] eqn:Hd; [|by right; left].
  apply is_image_dict_Some in Hd.
  repeat case_match; simplify_eq; try (by left; eauto).
  right; right. by eexists _, _, _.
Qed.

Lemma Bounds_body_lookup_ne (x : loc) (σ : store) (l : loc) :
  l <> x -> (body x σ).2 !! l = σ !! l.
Proof.
  intros Hne.
  destruct (Bounds_body_cases x σ) as [[e ->]|[[_ ->]|(d & a & affine & _ & ->)]];
    [done..|].
  cbn. by rewrite lookup_insert_ne.
Qed.

Lemma Bounds_body_retouched (x : loc) (σ : store) : retouched σ (body x σ).2.
Proof.
  destruct (Bounds_body_cases x σ) as [[e ->]|[[_ ->]|(d & a & affine & Hd & ->)]];
    [reflexivity..|].
  by apply (retouched_insert σ x d).
Qed.

End BoundsBody.

(** C7: [Lambda.apply_transform] and [BoundsTransform.apply_transform] each
    return the sample they were given, unless they raise; in the store they
    leave, no object has appeared or gone, what is no image is as it was, an
    image is still an image with the [TYPE] it had, and what the sample does
    not name is as it was. *)
Theorem transforms_respect_frame
    (tensor_setitem0 : array -> value -> result array) (lambda : Lambda.t)
    (sitk_image : Type)
    (nib_to_sitk : value -> value -> result sitk_image)
    (sitk_to_nib : sitk_image -> result (value * value))
    (bounds_function : result (sitk_image -> list Z -> list Z -> result sitk_image))
    (bounds : BoundsTransform.t)
    (sample : Sample) (σ : store) :
  respects_frame sample σ (Lambda.apply_transform tensor_setitem0 lambda sample σ)
  /\ respects_frame sample σ
       (BoundsTransform.apply_transform sitk_image nib_to_sitk sitk_to_nib
          bounds_function bounds sample σ).
Proof.
  split.
  - unfold Lambda.apply_transform.
    pose proof (for_each_rel retouched (Lambda.body tensor_setitem0 lambda) _ _
                  (Lambda_body_retouched tensor_setitem0 lambda)
                  (values sample) σ) as Hret.
    pose proof (for_each_lookup_notin (Lambda.body tensor_setitem0 lambda)
                  (Lambda_body_lookup_ne tensor_setitem0 lambda)
                  (values sample) σ) as Hout.
    destruct (for_each _ _ σ) as [[[]|e] σ']; apply retouched_frame; cbn in *; eauto.
  - unfold BoundsTransform.apply_transform.
    set (low := BoundsTransform.slice_0_2 _). set (high := BoundsTransform.slice_1_2 _).
    pose proof (for_each_rel retouched
                  (BoundsTransform.body sitk_image nib_to_sitk sitk_to_nib
                     bounds_function low high) _ _
                  (Bounds_body_retouched _ _ _ _ _ _)
                  (values sample) σ) as Hret.
    pose proof (for_each_lookup_notin _
                  (Bounds_body_lookup_ne sitk_image nib_to_sitk sitk_to_nib
                     bounds_function low high)
                  (values sample) σ) as Hout.
    destruct (for_each _ _ σ) as [[[]|e] σ']; apply retouched_frame; cbn in *; eauto.
Qed.

(** ** The shape of DATA after the transforms *)

Section LambdaShapes.

Variable tensor_setitem0 : array -> value -> result array.
Variable self : Lambda.t.
Variable sample : Sample.

(** A property of tensors that the callable hands on from its argument to
    a result with as many dimensions. *)
Variable Q : array -> Prop.
Hypothesis Q_kept : forall a r,
  Q a -> Lambda.function self (VTensor a) = VTensor r ->
  length (shape r) = length (shape a) -> Q r.

Local Abbreviation inv := (one_tensor_with Q sample).

(** An iteration on an image whose [DATA] is a list writes nothing, or puts
    first in the list a tensor of 32-bit floats that the callable returned,
    with as many dimensions as its argument. *)
Lemma Lambda_body_list (l : loc) (σ : store) (d : ImageDict)
    (x : value) (items : list value) :
  σ !! l = Some (OImage d) -> DATA d = CList (x :: items) ->
  (Lambda.body tensor_setitem0 self l σ).2 = σ
  \/ exists r, Lambda.function self x = VTensor r
       /\ dtype_of r = float32
       /\ ndim x = Ok (length (shape r))
       /\ (Lambda.body tensor_setitem0 self l σ).2
          = <[l := OImage (set_DATA d (CList (VTensor r :: items)))]> σ.
Proof.
  intros Hd HD. apply is_image_dict_Some in Hd.
  unfold Lambda.body. rewrite Hd, HD. cbn.
  destruct (Lambda.filtered_out self (TYPE d)); [by left|].
  destruct (Lambda.function self x) as [r| |] eqn:Hr; [|by left..].
  destruct (decide (dtype_of r = float32)) as [Hdt|Hdt];
    [rewrite bool_decide_eq_true_2 by done|rewrite bool_decide_eq_false_2 by done];
    [|by left].
  cbn. destruct (ndim x) as [n|]; [|by left].
  destruct (decide (length (shape r) = n)) as [Hn|Hn];
    [rewrite bool_decide_eq_true_2 by done|rewrite bool_decide_eq_false_2 by done];
    [|by left].
  cbn. right. exists r. by subst.
Qed.

Lemma Lambda_body_keeps (x : loc) (σ : store) :
  inv σ -> inv (Lambda.body tensor_setitem0 self x σ).2.
Proof.
  rewrite !one_tensor_with_spec. intros Hinv l d' Hl Hd'.
  destruct (decide (l = x)) as [->|Hne].
  - destruct (σ !! x) as [[d|v]|] eqn:Hx.
    + destruct (Hinv x d Hl) as (a & HD & Ha); [by apply is_image_dict_Some|].
      destruct (Lambda_body_list x σ d (VTensor a) [] Hx HD)
        as [Hsame|(r & Hr & _ & Hn & Hnew)].
      * rewrite Hsame in Hd'. apply is_image_dict_Some in Hd'.
        assert (d' = d) as -> by congruence. eauto.
      * rewrite Hnew in Hd'. apply is_image_dict_Some in Hd'.
        rewrite lookup_insert_eq in Hd'. simplify_eq. exists r. split; [done|].
        cbn in Hn. simplify_eq. by apply (Q_kept a r).
    + destruct (Lambda_body_store tensor_setitem0 self x σ)
        as [Hsame|(d & c & Hd & _)]; [|congruence].
      rewrite Hsame in Hd'. apply is_image_dict_Some in Hd'. congruence.
    + destruct (Lambda_body_store tensor_setitem0 self x σ)
        as [Hsame|(d & c & Hd & _)]; [|congruence].
      rewrite Hsame in Hd'. apply is_image_dict_Some in Hd'. congruence.
  - apply (Hinv l d' Hl). unfold is_image_dict in *.
    by rewrite <- (Lambda_body_lookup_ne tensor_setitem0 self x σ l Hne).
Qed.

(** The loop, and so [apply_transform], keeps that invariant, whether it
    returns or raises. *)
Lemma Lambda_apply_keeps (σ : store) :
  inv σ -> inv (Lambda.apply_transform tensor_setitem0 self sample σ).2.
Proof.
  intros Hinv.
  pose proof (for_each_rel (fun σ1 σ2 => inv σ1 -> inv σ2)
                (Lambda.body tensor_setitem0 self)) as Hrel.
  unfold Lambda.apply_transform.
  specialize (Hrel ltac:(by intros ?) ltac:(intros ??? H1 H2 ?; by apply H2, H1)
                Lambda_body_keeps (values sample) σ Hinv).
  by destruct (for_each _ _ σ) as [[[]|e] σ'].
Qed.

End LambdaShapes.

Section BoundsShapes.

Variable sitk_image : Type.
Variable nib_to_sitk : value -> value -> result sitk_image.
Variable sitk_to_nib : sitk_image -> result (value * value).
Variable bounds_function :
  result (sitk_image -> list Z -> list Z -> result sitk_image).
Variables low high : list Z.

Local Abbreviation body :=
  (BoundsTransform.body sitk_image nib_to_sitk sitk_to_nib bounds_function low high).

(** A property of the arrays that [sitk_to_nib] returns as voxel data. *)
Variable Q : array -> Prop.
Hypothesis Q_data : forall image a affine,
  sitk_to_nib image = Ok (VNdarray a, affine) -> Q a.

(** An iteration that returns has written a tensor with a first dimension
    of size 1, if the object is an image. *)
Lemma Bounds_body_writes (l : loc) (σ σ' : store) :
  body l σ = (Ok tt, σ') -> unsqueezed_at Q σ' l.
Proof.
  unfold BoundsTransform.body. intros Hbody d' Hd'.
  destruct (is_image_dict σ l) as [d|] eqn:Hd.
  - repeat case_match; simplify_eq.
    apply is_image_dict_Some in Hd'. rewrite lookup_insert_eq in Hd'.
    match goal with H : BoundsTransform.from_numpy ?v = Ok ?a |- _ =>
      destruct v as [|a'|]; simplify_eq/=; exists a end.
    split; [done|]. eauto.
  - by simplify_eq.
Qed.

(** Any iteration keeps what an earlier one has written that way. *)
Lemma Bounds_body_keeps (x l : loc) (σ : store) :
  unsqueezed_at Q σ l -> unsqueezed_at Q (body x σ).2 l.
Proof.
  intros Hl. destruct (decide (l = x)) as [->|Hne].
  - destruct (body x σ) as [[[]|e] σ'] eqn:Hbody.
    + by eapply Bounds_body_writes.
    + destruct (Bounds_body_cases sitk_image nib_to_sitk sitk_to_nib
                  bounds_function low high x σ)
        as [[e' He]|[[_ He]|(d & a & affine & _ & He)]]; rewrite He in Hbody;
        by simplify_eq.
  - intros d. unfold is_image_dict.
    rewrite (Bounds_body_lookup_ne sitk_image nib_to_sitk sitk_to_nib
               bounds_function low high x σ l Hne).
    apply Hl.
Qed.

(** After a loop that returns, every object it has visited is such. *)
Lemma Bounds_loop_writes (ls : list loc) :
  forall σ σ', for_each body ls σ = (Ok tt, σ') ->
    forall l, l ∈ ls -> unsqueezed_at Q σ' l.
Proof.
  induction ls as [|x ls IH]; intros σ σ' Hloop l Hl; [by apply elem_of_nil in Hl|].
  rewrite for_each_cons in Hloop.
  destruct (body x σ) as [[[]|e] σ1] eqn:Hbody; [|done].
  destruct (decide (l ∈ ls)) as [Hin|Hout]; [by eapply IH|].
  apply elem_of_cons in Hl as [->|Hin]; [|done].
  pose proof (Bounds_body_writes x σ σ1 Hbody) as Hx.
  pose proof (for_each_rel (fun σ1 σ2 => unsqueezed_at Q σ1 x -> unsqueezed_at Q σ2 x) body
                ltac:(by intros ?) ltac:(intros ??? H1 H2 ?; by apply H2, H1)
                (fun y σ0 => Bounds_body_keeps y x σ0) ls σ1 Hx) as Hkeep.
  by rewrite Hloop in Hkeep.
Qed.

End BoundsShapes.

(** C2, as the specification states it, fails for [Lambda]: the example
    sample satisfies the data model, [Lambda(lambda x: torch.cat([x, x]))]
    returns on it, and the images then hold tensors with two channels. *)
Lemma Lambda_can_add_a_channel :
  data_model example_store example_sample
  /\ forall tensor_setitem0, exists σ',
       Lambda.apply_transform tensor_setitem0 (Lambda.mk cat_twice None)
         example_sample example_store
       = (Ok example_sample, σ')
       /\ σ' !! 0%nat
          = Some (OImage (mkImageDict "intensity"
                    (CList [VTensor (mkArray float32 [2; 1; 1; 1]%nat [5; 5])])
                    identity4))
       /\ ~ data_model σ' example_sample.
Proof.
  split; [by compute_done|].
  intros tensor_setitem0. eexists. split; [by vm_compute|].
  split; [by vm_compute|].
  intros Hdm. apply one_tensor_with_spec with (l := 0%nat)
    (d := mkImageDict "intensity"
            (CList [VTensor (mkArray float32 [2; 1; 1; 1]%nat [5; 5])]) identity4) in Hdm
    as (a & [= <-] & _ & Hch); [|by compute_done|by vm_compute].
  by vm_compute in Hch.
Qed.

(** C2, amended.  From a store in which the sample satisfies the data
    model:
    - after [Lambda.apply_transform], whether it returns or raises, [DATA]
      of every image of the sample is still a sequence of length 1 that
      holds a tensor with 4 dimensions; the first dimension still has size 1
      when the callable returns one channel for one channel;
    - after a [BoundsTransform.apply_transform] that returns, [DATA] of
      every image of the sample is itself a tensor, no sequence: the voxel
      array that [sitk_to_nib] returned, with a first dimension of size 1
      before its own, so with 4 dimensions when that array has 3. *)
Theorem transforms_keep_shape
    (tensor_setitem0 : array -> value -> result array) (lambda : Lambda.t)
    (sitk_image : Type)
    (nib_to_sitk : value -> value -> result sitk_image)
    (sitk_to_nib : sitk_image -> result (value * value))
    (bounds_function : result (sitk_image -> list Z -> list Z -> result sitk_image))
    (bounds : BoundsTransform.t)
    (sample : Sample) (σ : store) :
  data_model σ sample ->
  (four_dimensional (Lambda.apply_transform tensor_setitem0 lambda sample σ).2 sample
   /\ (keeps_one_channel (Lambda.function lambda) ->
       data_model (Lambda.apply_transform tensor_setitem0 lambda sample σ).2 sample))
  /\ (forall σ',
        BoundsTransform.apply_transform sitk_image nib_to_sitk sitk_to_nib
          bounds_function bounds sample σ = (Ok sample, σ') ->
        forall l d, l ∈ values sample -> is_image_dict σ l = Some d ->
          exists d' v image affine,
            is_image_dict σ' l = Some d'
            /\ sitk_to_nib image = Ok (VNdarray v, affine)
            /\ DATA d' = CTensor (mkArray (dtype_of v) (1%nat :: shape v) (elements v))).
Proof.
  intros Hdm. split; [split|].
  - apply Lambda_apply_keeps.
    + intros a r Ha _ Hlen. unfold four_dimensions in *. congruence.
    + apply one_tensor_with_spec. intros l d Hl Hd.
      destruct (proj1 (one_tensor_with_spec _ _ _) Hdm l d Hl Hd) as (a & HD & Ha & _).
      eauto.
  - intros Hkeep. apply Lambda_apply_keeps; [|done].
    intros a r [Ha Hch] Hr Hlen. split.
    + unfold four_dimensions in *. congruence.
    + by apply (Hkeep a r).
  - intros σ' Happly l d Hl Hd.
    unfold BoundsTransform.apply_transform in Happly.
    set (low := BoundsTransform.slice_0_2 _) in Happly.
    set (high := BoundsTransform.slice_1_2 _) in Happly.
    destruct (for_each _ _ σ) as [[[]|e] σ1] eqn:Hloop; [|done].
    injection Happly as <-.
    pose proof (for_each_rel retouched _ _ _
                  (Bounds_body_retouched sitk_image nib_to_sitk sitk_to_nib
                     bounds_function low high) (values sample) σ l) as Hret.
    rewrite Hloop in Hret. cbn in Hret.
    apply is_image_dict_Some in Hd. rewrite Hd in Hret.
    destruct Hret as (d' & Hd' & _). apply is_image_dict_Some in Hd'.
    pose proof (Bounds_loop_writes sitk_image nib_to_sitk sitk_to_nib
                  bounds_function low high
                  (fun a => exists image affine,
                              sitk_to_nib image = Ok (VNdarray a, affine))
                  (fun image a affine Ha => ex_intro _ image (ex_intro _ affine Ha))
                  (values sample) σ σ1 Hloop l Hl d' Hd')
      as (v & HD & image & affine & Hv).
    by exists d', v, image, affine.
Qed.

(** ** The theorems at the example sample *)

Lemma Lambda_applies_to_matching_images_witness :
  NoDup (values example_sample)
  /\ Lambda.all_accepted (Lambda.mk zeros_like (Some ["intensity"]))
       example_store (values example_sample)
  /\ exists σ',
       Lambda.apply_transform refuse_setitem0
         (Lambda.mk zeros_like (Some ["intensity"])) example_sample example_store
       = (Ok example_sample, σ')
       /\ σ' !! 0%nat
          = Some (OImage (mkImageDict "intensity" (CList [VTensor (one_voxel 0)])
                    identity4))
       /\ σ' !! 1%nat = example_store !! 1%nat.
Proof.
  assert (Hnd : NoDup (values example_sample)) by compute_done.
  assert (Hacc : Lambda.all_accepted (Lambda.mk zeros_like (Some ["intensity"]))
                   example_store (values example_sample)) by compute_done.
  split; [exact Hnd|]. split; [exact Hacc|].
  destruct (Lambda_applies_to_matching_images refuse_setitem0
              (Lambda.mk zeros_like (Some ["intensity"]))
              example_sample example_store Hnd Hacc)
    as (σ' & Happly & Hmatch & Hskip & _).
  exists σ'. split; [exact Happly|]. split.
  - apply (Hmatch 0%nat
             (mkImageDict "intensity" (CList [VTensor (one_voxel 5)]) identity4)
             (VTensor (one_voxel 5)) []);
      [compute_done|reflexivity|compute_done|reflexivity].
  - apply (Hskip 1%nat
             (mkImageDict "label" (CList [VTensor (one_voxel 1)]) identity4)
             ["intensity"]);
      [reflexivity|reflexivity|compute_done].
Defined.

Lemma Lambda_keeps_earlier_writes_witness :
  exists message σ',
    Lambda.apply_transform refuse_setitem0 (Lambda.mk double_ones None)
      example_sample example_store
    = (Raise (ValueError message), σ')
    /\ σ' !! 0%nat
       = Some (OImage (mkImageDict "intensity" (CList [VTensor (one_voxel 0)])
                 identity4)).
Proof.
  destruct (Lambda_keeps_earlier_writes refuse_setitem0 (Lambda.mk double_ones None)
              example_sample example_store [0%nat] [2%nat] 1%nat
              (mkImageDict "label" (CList [VTensor (one_voxel 1)]) identity4)
              (VTensor (one_voxel 1)) [] 4%nat)
    as (message & σ' & Happly & Hpre);
    [reflexivity|compute_done|compute_done|reflexivity|reflexivity|reflexivity
    |reflexivity|reflexivity|].
  exists message, σ'. split; [exact Happly|].
  apply (Hpre 0%nat
           (mkImageDict "intensity" (CList [VTensor (one_voxel 5)]) identity4)
           (VTensor (one_voxel 5)) []);
    [compute_done|reflexivity|reflexivity|reflexivity].
Defined.

Lemma Lambda_failing_image_untouched_witness :
  Lambda.apply_transform refuse_setitem0 (Lambda.mk double_ones None)
    example_sample example_store
  = (Raise (ValueError
       "The data type of the returned value must be of type torch.float32, not torch.float64"),
     example_store_zeroed)
  /\ example_store_zeroed !! 1%nat = example_store !! 1%nat.
Proof.
  destruct (Lambda_failing_image_untouched refuse_setitem0 (Lambda.mk double_ones None)
              example_sample example_store example_store_zeroed example_store_zeroed
              [0%nat] [2%nat] 1%nat
              (ValueError
                 "The data type of the returned value must be of type torch.float32, not torch.float64"))
    as [Happly Hsame]; [reflexivity|by vm_compute|by vm_compute|].
  split; [exact Happly|]. apply Hsame. compute_done.
Defined.

Lemma Lambda_identity_changes_nothing_witness :
  Lambda.apply_transform refuse_setitem0 (Lambda.mk (fun x => x) (Some ["label"]))
    example_sample example_store
  = (Ok example_sample, example_store).
Proof.
  apply (Lambda_identity_changes_nothing refuse_setitem0 (Some ["label"])
           example_sample example_store).
  compute_done.
Defined.

Lemma Lambda_validation_order_witness :
  Lambda.body refuse_setitem0 (Lambda.mk double_ones None) 1%nat example_store
  = (Raise (ValueError
       "The data type of the returned value must be of type torch.float32, not torch.float64"),
     example_store).
Proof.
  destruct (Lambda_validation_order refuse_setitem0 (Lambda.mk double_ones None)
              1%nat example_store
              (mkImageDict "label" (CList [VTensor (one_voxel 1)]) identity4)
              (VTensor (one_voxel 1)) 4%nat)
    as (_ & Hdtype & _); [reflexivity..|].
  apply (Hdtype (mkArray float64 [1; 1; 1; 1]%nat [1])); [reflexivity|discriminate].
Defined.

Lemma transforms_keep_shape_witness :
  data_model example_store example_sample
  /\ data_model
       (Lambda.apply_transform refuse_setitem0 (Lambda.mk zeros_like None)
          example_sample example_store).2 example_sample
  /\ exists d' v,
       is_image_dict
         (BoundsTransform.apply_transform array example_nib_to_sitk example_sitk_to_nib
            example_bounds_function (BoundsTransform.mk [1; 1; 1; 1; 1; 1])
            example_sample example_store).2 0%nat = Some d'
       /\ DATA d' = CTensor (mkArray (dtype_of v) (1%nat :: shape v) (elements v)).
Proof.
  assert (Hdm : data_model example_store example_sample) by compute_done.
  destruct (transforms_keep_shape refuse_setitem0 (Lambda.mk zeros_like None)
              array example_nib_to_sitk example_sitk_to_nib example_bounds_function
              (BoundsTransform.mk [1; 1; 1; 1; 1; 1])
              example_sample example_store Hdm)
    as [[_ Hlambda] Hbounds].
  split; [exact Hdm|]. split.
  - apply Hlambda. intros a r [= <-] Hch. exact Hch.
  - destruct (Hbounds
                (BoundsTransform.apply_transform array example_nib_to_sitk
                   example_sitk_to_nib example_bounds_function
                   (BoundsTransform.mk [1; 1; 1; 1; 1; 1])
                   example_sample example_store).2
                ltac:(by vm_compute) 0%nat
                (mkImageDict "intensity" (CList [VTensor (one_voxel 5)]) identity4)
                ltac:(compute_done) ltac:(reflexivity))
      as (d' & v & image & affine & Hd' & _ & HD).
    exists d', v. split; [exact Hd'|exact HD].
Defined.

(** * Further properties *)

(** ** parse_bounds and the constructor *)

(** X1: [parse_bounds] looks at the number of values only, never at the
    values: it returns exactly when there are 1, 3 or 6 of them, what it
    returns has 6 entries, and otherwise it raises [ValueError] and nothing
    else. *)
Theorem parse_bounds_by_length (bp : BoundsTransform.TypeBounds) :
  match BoundsTransform.parse_bounds bp with
  | Ok parsed =>
      (length (BoundsTransform.as_tuple bp) ∈ [1; 3; 6]%nat) /\ length parsed = 6%nat
  | Raise e =>
      (length (BoundsTransform.as_tuple bp) ∉ [1; 3; 6]%nat)
      /\ exists message, e = ValueError message
  end.
Proof.
  destruct (BoundsTransform.parse_bounds bp) as [parsed|e] eqn:Hp.
  - split; [|by eapply parse_bounds_length].
    unfold BoundsTransform.parse_bounds in Hp.
    destruct (length (BoundsTransform.as_tuple bp) =? 6)%nat eqn:H6;
      [apply Nat.eqb_eq in H6; rewrite H6; set_solver|].
    destruct (length (BoundsTransform.as_tuple bp) =? 1)%nat eqn:H1;
      [apply Nat.eqb_eq in H1; rewrite H1; set_solver|].
    destruct (length (BoundsTransform.as_tuple bp) =? 3)%nat eqn:H3; [|done].
    apply Nat.eqb_eq in H3. rewrite H3. set_solver.
  - unfold BoundsTransform.parse_bounds in Hp.
    destruct (length (BoundsTransform.as_tuple bp) =? 6)%nat eqn:H6; [done|].
    destruct (length (BoundsTransform.as_tuple bp) =? 1)%nat eqn:H1; [done|].
    destruct (length (BoundsTransform.as_tuple bp) =? 3)%nat eqn:H3; [done|].
    apply Nat.eqb_neq in H1, H3, H6. split; [|by simplify_eq; eauto].
    rewrite !elem_of_cons, elem_of_nil. tauto.
Qed.

(** X2: where [parse_bounds] is exact.  One integer [n] gives [n] six
    times, whatever [n]; six values are returned as they are; three
    integers that all fit 64 signed bits are each given twice, in place. *)
Theorem parse_bounds_exact (n : Z) (items : list Z) (a b c : Z) :
  length items = 6%nat ->
  - 2 ^ 63 <= a < 2 ^ 63 -> - 2 ^ 63 <= b < 2 ^ 63 -> - 2 ^ 63 <= c < 2 ^ 63 ->
  BoundsTransform.parse_bounds (BoundsTransform.BInt n) = Ok [n; n; n; n; n; n]
  /\ BoundsTransform.parse_bounds (BoundsTransform.BSeq [n]) = Ok [n; n; n; n; n; n]
  /\ BoundsTransform.parse_bounds (BoundsTransform.BSeq items) = Ok items
  /\ BoundsTransform.parse_bounds (BoundsTransform.BSeq [a; b; c])
     = Ok [a; a; b; b; c; c].
Proof.
  intros Hlen Ha Hb Hc. split; [done|]. split; [done|]. split.
  - by apply parse_bounds_six.
  - apply parse_bounds_three_int64;
      unfold BoundsTransform.int64_min, BoundsTransform.int64_max; lia.
Qed.

Lemma parse_bounds_exact_witness :
  BoundsTransform.parse_bounds (BoundsTransform.BInt (-4)) = Ok [-4; -4; -4; -4; -4; -4]
  /\ BoundsTransform.parse_bounds (BoundsTransform.BSeq [-4]) = Ok [-4; -4; -4; -4; -4; -4]
  /\ BoundsTransform.parse_bounds (BoundsTransform.BSeq [1; 2; 3; 4; 5; 6])
     = Ok [1; 2; 3; 4; 5; 6]
  /\ BoundsTransform.parse_bounds (BoundsTransform.BSeq [7; 0; 2 ^ 63 - 1])
     = Ok [7; 7; 0; 0; 2 ^ 63 - 1; 2 ^ 63 - 1].
Proof.
  apply (parse_bounds_exact (-4) [1; 2; 3; 4; 5; 6] 7 0 (2 ^ 63 - 1));
    [reflexivity|lia..].
Defined.

(** X3: parsing what [parse_bounds] has returned gives it back. *)
Theorem parse_bounds_idempotent (bp : BoundsTransform.TypeBounds) (parsed : list Z) :
  BoundsTransform.parse_bounds bp = Ok parsed ->
  BoundsTransform.parse_bounds (BoundsTransform.BSeq parsed) = Ok parsed.
Proof.
  intros Hp. apply parse_bounds_six. by eapply parse_bounds_length.
Qed.

Lemma parse_bounds_idempotent_witness :
  BoundsTransform.parse_bounds (BoundsTransform.BSeq [1; 1; 2; 2; 3; 3])
  = Ok [1; 1; 2; 2; 3; 3].
Proof.
  apply (parse_bounds_idempotent (BoundsTransform.BSeq [1; 2; 3])). reflexivity.
Defined.

Lemma np_repeat_two (t : list Z) :
  length t = 3%nat ->
  exists a b c, BoundsTransform.np_repeat t 2 = [a; a; b; b; c; c].
Proof.
  intros Hlen. unfold BoundsTransform.np_repeat.
  assert (Hl : length (BoundsTransform.np_asarray t) = 3%nat).
  { unfold BoundsTransform.np_asarray.
    destruct (BoundsTransform.np_result_dtype t); by rewrite ?length_fmap. }
  destruct (BoundsTransform.np_asarray t) as [|a [|b [|c [|]]]]; simplify_eq/=.
  by exists a, b, c.
Qed.

(** X4: in a transform that the constructor has returned, [low] and [high],
    as [apply_transform] slices them, have three entries each, and the
    bounds are [low] and [high] taken in turn; when one value or three
    values were given, [low] and [high] are equal. *)
Theorem init_low_high (bp : BoundsTransform.TypeBounds) (self : BoundsTransform.t) :
  BoundsTransform.init bp = Ok self ->
  let low := BoundsTransform.slice_0_2 (BoundsTransform.bounds_parameters self) in
  let high := BoundsTransform.slice_1_2 (BoundsTransform.bounds_parameters self) in
  length low = 3%nat /\ length high = 3%nat
  /\ interleave low high = BoundsTransform.bounds_parameters self
  /\ (length (BoundsTransform.as_tuple bp) <> 6%nat -> low = high).
Proof.
  unfold BoundsTransform.init.
  destruct (BoundsTransform.parse_bounds bp) as [parsed|e] eqn:Hp; [|done].
  intros [= <-]. cbn [BoundsTransform.bounds_parameters].
  pose proof (parse_bounds_length bp parsed Hp) as Hlen.
  split; [|split; [|split]].
  - destruct parsed as [|? [|? [|? [|? [|? [|? [|]]]]]]]; by simplify_eq/=.
  - destruct parsed as [|? [|? [|? [|? [|? [|? [|]]]]]]]; by simplify_eq/=.
  - destruct parsed as [|? [|? [|? [|? [|? [|? [|]]]]]]]; by simplify_eq/=.
  - intros H6. unfold BoundsTransform.parse_bounds in Hp.
    apply Nat.eqb_neq in H6. rewrite H6 in Hp.
    destruct (length (BoundsTransform.as_tuple bp) =? 1)%nat eqn:H1.
    + apply Nat.eqb_eq in H1.
      destruct (BoundsTransform.as_tuple bp) as [|n [|]]; by simplify_eq/=.
    + destruct (length (BoundsTransform.as_tuple bp) =? 3)%nat eqn:H3; [|done].
      apply Nat.eqb_eq in H3.
      destruct (np_repeat_two _ H3) as (a & b & c & Hr).
      rewrite Hr in Hp. by simplify_eq.
Qed.

Lemma init_low_high_witness :
  BoundsTransform.slice_0_2 [2; 2; 5; 5; 8; 8] = [2; 5; 8]
  /\ BoundsTransform.slice_1_2 [2; 2; 5; 5; 8; 8] = [2; 5; 8].
Proof.
  destruct (init_low_high (BoundsTransform.BSeq [2; 5; 8])
              (BoundsTransform.mk [2; 2; 5; 5; 8; 8]) ltac:(reflexivity))
    as (_ & _ & _ & Heq).
  split; [reflexivity|]. symmetry. apply Heq. simpl. lia.
Defined.

(** ** BoundsTransform.apply_transform *)

Section BoundsLoop.

Variable sitk_image : Type.
Variable nib_to_sitk : value -> value -> result sitk_image.
Variable sitk_to_nib : sitk_image -> result (value * value).
Variable bounds_function :
  result (sitk_image -> list Z -> list Z -> result sitk_image).
Variables low high : list Z.

Local Abbreviation body :=
  (BoundsTransform.body sitk_image nib_to_sitk sitk_to_nib bounds_function low high).
Local Abbreviation converted :=
  (Bounds_converted sitk_image nib_to_sitk sitk_to_nib bounds_function low high).
Local Abbreviation written := (fun o : object =>
  match o with
  | OImage d =>
      match converted d with
      | Ok (a, affine) =>
          OImage (mkImageDict (TYPE d) (CTensor (BoundsTransform.unsqueeze0 a)) affine)
      | Raise _ => o
      end
  | OOther _ => o
  end).

(** An iteration skips what is no image; on an image it raises what the
    computation raises, with the store as it is, or writes what the
    computation returns. *)
Lemma Bounds_body_converted (l : loc) (σ : store) :
  body l σ
  = match is_image_dict σ l with
    | None => (Ok tt, σ)
    | Some d =>
        match converted d with
        | Raise e => (Raise e, σ)
        | Ok (a, affine) =>
            (Ok tt, <[l := OImage (mkImageDict (TYPE d)
                                     (CTensor (BoundsTransform.unsqueeze0 a)) affine)]> σ)
        end
    end.
Proof.
  unfold BoundsTransform.body, Bounds_converted.
  repeat case_match; by simplify_eq.
Qed.

Lemma Bounds_body_raise (l : loc) (σ σ' : store) (e : exn) :
  body l σ = (Raise e, σ') -> σ' = σ.
Proof.
  rewrite Bounds_body_converted. intros H. repeat case_match; by simplify_eq.
Qed.

Lemma Bounds_loop_written (ls : list loc) :
  forall σ, NoDup ls ->
    Forall (Bounds_converts_at sitk_image nib_to_sitk sitk_to_nib bounds_function
              low high σ) ls ->
    exists σ', for_each body ls σ = (Ok tt, σ')
      /\ forall l, σ' !! l
           = if bool_decide (l ∈ ls) then written <$> σ !! l else σ !! l.
Proof.
  induction ls as [|x ls IH]; intros σ Hnd Hall.
  { exists σ. split; [done|]. intros l. by rewrite bool_decide_eq_false_2 by set_solver. }
  apply NoDup_cons in Hnd as [Hx Hnd].
  apply Forall_cons in Hall as [Hat Hall].
  assert (Hstep : exists σ1, body x σ = (Ok tt, σ1)
            /\ σ1 !! x = written <$> σ !! x
            /\ forall l, l <> x -> σ1 !! l = σ !! l).
  { rewrite Bounds_body_converted. unfold Bounds_converts_at, is_image_dict in *.
    destruct (σ !! x) as [[d|v]|] eqn:Hσx; [|by exists σ; rewrite Hσx..].
    destruct (converted d) as [[a affine]|e] eqn:Hc; [|done].
    eexists. split; [done|]. split.
    - rewrite lookup_insert_eq. cbn. by rewrite Hc.
    - intros l Hne. by rewrite lookup_insert_ne. }
  destruct Hstep as (σ1 & Hbody & Hσ1x & Hσ1).
  destruct (IH σ1 Hnd) as (σ' & Hloop & Hσ').
  { apply Forall_forall. intros l Hl.
    pose proof (proj1 (Forall_forall _ _) Hall l Hl) as Hl'.
    unfold Bounds_converts_at, is_image_dict in *.
    rewrite Hσ1; [done|]. by intros ->. }
  exists σ'. split; [by rewrite for_each_cons, Hbody|].
  intros l. rewrite Hσ'. destruct (decide (l = x)) as [->|Hne].
  - rewrite (bool_decide_eq_false_2 (x ∈ ls)) by done.
    assert (x ∈ x :: ls) by (by left). by rewrite bool_decide_eq_true_2.
  - rewrite (Hσ1 l Hne).
    destruct (decide (l ∈ ls)) as [Hin|Hout].
    + assert (l ∈ x :: ls) by (by right). by rewrite !bool_decide_eq_true_2.
    + assert (l ∉ x :: ls) by (by apply not_elem_of_cons).
      by rewrite !bool_decide_eq_false_2.
Qed.

(** X5: on a sample that names every object once and for whose images every
    step succeeds, [apply_transform] returns the sample, and has replaced,
    in every image of the sample and whatever its [TYPE], [DATA] by the
    tensor made from the voxel array with a first dimension of size 1, and
    [AFFINE] by the new affine; what is no image and what the sample does
    not name is as it was. *)
Theorem Bounds_rewrites_every_image (self : BoundsTransform.t)
    (sample : Sample) (σ : store) :
  low = BoundsTransform.slice_0_2 (BoundsTransform.bounds_parameters self) ->
  high = BoundsTransform.slice_1_2 (BoundsTransform.bounds_parameters self) ->
  NoDup (values sample) ->
  Forall (Bounds_converts_at sitk_image nib_to_sitk sitk_to_nib bounds_function
            low high σ) (values sample) ->
  exists σ',
    BoundsTransform.apply_transform sitk_image nib_to_sitk sitk_to_nib bounds_function
      self sample σ = (Ok sample, σ')
    /\ (forall l d a affine,
          l ∈ values sample -> σ !! l = Some (OImage d) ->
          converted d = Ok (a, affine) ->
          σ' !! l = Some (OImage (mkImageDict (TYPE d)
                                    (CTensor (mkArray (dtype_of a) (1%nat :: shape a)
                                                (elements a)))
                                    affine)))
    /\ (forall l, is_image_dict σ l = None -> σ' !! l = σ !! l)
    /\ (forall l, l ∉ values sample -> σ' !! l = σ !! l).
Proof.
  intros Hlow Hhigh Hnd Hall.
  destruct (Bounds_loop_written (values sample) σ Hnd Hall) as (σ' & Hloop & Hσ').
  exists σ'. split.
  { unfold BoundsTransform.apply_transform. by rewrite <- Hlow, <- Hhigh, Hloop. }
  split; [|split].
  - intros l d a affine Hl Hd Hc.
    rewrite Hσ', bool_decide_eq_true_2, Hd by done. cbn. by rewrite Hc.
  - intros l Hd. rewrite Hσ'. unfold is_image_dict in Hd.
    destruct (σ !! l) as [[d|v]|]; [done|by destruct (bool_decide _)..].
  - intros l Hl. by rewrite Hσ', bool_decide_eq_false_2.
Qed.

(** X6: when the iteration on [l] raises, whichever step raised,
    [apply_transform] raises the same exception and leaves the store as it
    was when that iteration began: the image at [l] has neither a new
    [DATA] nor a new [AFFINE], the images before it keep theirs, and those
    after it are not visited. *)
Theorem Bounds_failing_image_untouched (self : BoundsTransform.t)
    (sample : Sample) (σ σ1 σ2 : store) (pre post : list loc) (l : loc) (e : exn) :
  low = BoundsTransform.slice_0_2 (BoundsTransform.bounds_parameters self) ->
  high = BoundsTransform.slice_1_2 (BoundsTransform.bounds_parameters self) ->
  values sample = pre ++ l :: post ->
  for_each body pre σ = (Ok tt, σ1) ->
  body l σ1 = (Raise e, σ2) ->
  BoundsTransform.apply_transform sitk_image nib_to_sitk sitk_to_nib bounds_function
    self sample σ = (Raise e, σ1)
  /\ (forall l', l' ∉ pre -> σ1 !! l' = σ !! l').
Proof.
  intros Hlow Hhigh Hvals Hpre Hbody.
  pose proof (Bounds_body_raise _ _ _ _ Hbody) as ->.
  split.
  - unfold BoundsTransform.apply_transform.
    by rewrite <- Hlow, <- Hhigh, Hvals, for_each_app, Hpre, for_each_cons, Hbody.
  - intros l' Hl'.
    pose proof (for_each_lookup_notin body
                  (Bounds_body_lookup_ne sitk_image nib_to_sitk sitk_to_nib
                     bounds_function low high) pre σ l' Hl') as H.
    by rewrite Hpre in H.
Qed.

(** X7: what an iteration writes is read back by [image_dict[DATA][0]] as
    the voxel array that [sitk_to_nib] returned, when that array has as
    many elements as its shape says. *)
Theorem Bounds_written_data_read_back (l : loc) (σ σ' : store) (d : ImageDict) :
  is_image_dict σ l = Some d ->
  body l σ = (Ok tt, σ') ->
  exists d' a image,
    is_image_dict σ' l = Some d'
    /\ sitk_to_nib image = Ok (VNdarray a, AFFINE d')
    /\ TYPE d' = TYPE d
    /\ (well_formed a -> getitem0 (DATA d') = Ok (VTensor a)).
Proof.
  intros Hd. unfold BoundsTransform.body. rewrite Hd. intros Hbody.
  repeat case_match; simplify_eq.
  match goal with H : BoundsTransform.from_numpy ?v = Ok ?a |- _ =>
    destruct v as [|a'|]; simplify_eq/= end.
  eexists _, _, _. split; [apply is_image_dict_Some, lookup_insert_eq|].
  cbn. split; [done|]. split; [done|].
  unfold well_formed. intros Hwf.
  match goal with |- context [elements ?x] => destruct x as [dt sh els] end.
  cbn in *. by rewrite <- Hwf, firstn_all.
Qed.

End BoundsLoop.

(** X8: on the [BoundsTransform] class itself, whose [bounds_function]
    raises, [apply_transform] never writes; it returns the sample exactly
    when no value of the sample is an image, and otherwise raises at the
    first image: [IndexError] from an empty [DATA], what [nib_to_sitk]
    raises, or [NotImplementedError]. *)
Theorem Bounds_base_class_never_writes (sitk_image : Type)
    (nib_to_sitk : value -> value -> result sitk_image)
    (sitk_to_nib : sitk_image -> result (value * value))
    (self : BoundsTransform.t) (sample : Sample) (σ : store) :
  let outcome :=
    BoundsTransform.apply_transform sitk_image nib_to_sitk sitk_to_nib
      base_bounds_function self sample σ in
  outcome.2 = σ
  /\ (outcome.1 = Ok sample <-> Forall (fun l => is_image_dict σ l = None) (values sample))
  /\ (forall e, outcome.1 = Raise e ->
        e = NotImplementedError \/ e = IndexError
        \/ exists data affine, nib_to_sitk data affine = Raise e).
Proof.
  cbn zeta. unfold BoundsTransform.apply_transform.
  set (low := BoundsTransform.slice_0_2 _). set (high := BoundsTransform.slice_1_2 _).
  assert (Hloop : forall ls,
    let out := for_each (BoundsTransform.body sitk_image nib_to_sitk sitk_to_nib
                           base_bounds_function low high) ls σ in
    out.2 = σ
    /\ (out.1 = Ok tt <-> Forall (fun l => is_image_dict σ l = None) ls)
    /\ (forall e, out.1 = Raise e ->
          e = NotImplementedError \/ e = IndexError
          \/ exists data affine, nib_to_sitk data affine = Raise e)).
  { induction ls as [|x ls IH]; cbn zeta.
    { split; [done|]. split; [by split|done]. }
    rewrite for_each_cons, Bounds_body_converted.
    destruct (is_image_dict σ x) as [d|] eqn:Hd.
    - unfold Bounds_converted, base_bounds_function.
      destruct (getitem0 (DATA d)) as [data0|e0] eqn:Hget.
      + destruct (nib_to_sitk data0 (AFFINE d)) as [image|e1] eqn:Hnib; cbn.
        * split; [done|]. split.
          -- split; [done|]. intros H. apply Forall_cons in H as [H _]. congruence.
          -- intros e [= <-]. by left.
        * split; [done|]. split.
          -- split; [done|]. intros H. apply Forall_cons in H as [H _]. congruence.
          -- intros e [= <-]. right; right. eauto.
      + cbn. split; [done|]. split.
        * split; [done|]. intros H. apply Forall_cons in H as [H _]. congruence.
        * intros e [= <-]. right; left.
          unfold getitem0 in Hget. repeat case_match; by simplify_eq.
    - destruct IH as (Hσ & Hok & Herr). split; [done|]. split; [|done].
      rewrite Hok. split; [by constructor|].
      intros H. by apply Forall_cons in H as [_ H]. }
  destruct (Hloop (values sample)) as (Hσ & Hok & Herr).
  destruct (for_each _ _ σ) as [[[]|e] σ']; cbn in *.
  - split; [done|]. split; [|by intros e [=]]. split; [intros _; by apply Hok|done].
  - split; [done|]. split; [|by intros e' [= <-]; apply Herr].
    split; [done|]. intros H. by apply Hok in H.
Qed.

(** ** Lambda.apply_transform *)

Lemma for_each_ext {A : Type} (body1 body2 : A -> M unit) :
  (forall x σ, body1 x σ = body2 x σ) ->
  forall xs σ, for_each body1 xs σ = for_each body2 xs σ.
Proof.
  intros Hext xs. induction xs as [|x xs IH]; intros σ; [done|].
  rewrite !for_each_cons, Hext. by destruct (body2 x σ) as [[[]|e] σ1].
Qed.

Global Instance same_but_first_refl : Reflexive same_but_first.
Proof. intros d. unfold same_but_first. by destruct (DATA d). Qed.

Global Instance same_but_first_trans : Transitive same_but_first.
Proof.
  intros d1 d2 d3 (Ht & Ha & H12) (Ht' & Ha' & H23). unfold same_but_first.
  split; [congruence|]. split; [congruence|].
  destruct (DATA d1), (DATA d2), (DATA d3); try done.
  destruct H12, H23. split; congruence.
Qed.

Global Instance first_items_rewritten_refl : Reflexive first_items_rewritten.
Proof. intros σ l. destruct (σ !! l) as [[d|v]|]; [|done..]. by exists d. Qed.

Global Instance first_items_rewritten_trans : Transitive first_items_rewritten.
Proof.
  intros σ1 σ2 σ3 H12 H23 l. specialize (H12 l). specialize (H23 l).
  destruct (σ1 !! l) as [[d|v]|].
  - destruct H12 as (d' & Hd' & Hs). rewrite Hd' in H23.
    destruct H23 as (d'' & Hd'' & Hs'). exists d''. split; [done|by etrans].
  - by rewrite H12 in H23.
  - by rewrite H12 in H23.
Qed.

Section LambdaFurther.

Variable tensor_setitem0 : array -> value -> result array.

Lemma Lambda_body_first_item (self : Lambda.t) (x : loc) (σ : store) :
  first_items_rewritten σ (Lambda.body tensor_setitem0 self x σ).2.
Proof.
  unfold Lambda.body.
  destruct (is_image_dict σ x) as [d|] eqn:Hd; [|reflexivity].
  apply is_image_dict_Some in Hd.
  repeat case_match; simplify_eq; cbn; try reflexivity.
  intros l. destruct (decide (l = x)) as [->|Hne].
  - rewrite Hd, lookup_insert_eq. eexists. split; [done|].
    unfold same_but_first, Lambda.setitem0 in *. cbn.
    repeat case_match; by simplify_eq.
  - rewrite lookup_insert_ne by done. destruct (σ !! l) as [[d0|v]|]; [|done..].
    by exists d0.
Qed.

(** X9: whether it returns or raises, [Lambda.apply_transform] leaves in
    every image the [AFFINE] and the [TYPE] it had, and a [DATA] list of
    the same length with the same items after the first: the first item is
    all it ever assigns. *)
Theorem Lambda_writes_first_item_only (self : Lambda.t) (sample : Sample)
    (σ : store) (l : loc) (d : ImageDict) :
  σ !! l = Some (OImage d) ->
  exists d',
    (Lambda.apply_transform tensor_setitem0 self sample σ).2 !! l = Some (OImage d')
    /\ AFFINE d' = AFFINE d /\ TYPE d' = TYPE d
    /\ forall items, DATA d = CList items ->
         exists items', DATA d' = CList items'
           /\ length items' = length items /\ drop 1 items' = drop 1 items.
Proof.
  intros Hd.
  pose proof (for_each_rel first_items_rewritten (Lambda.body tensor_setitem0 self) _ _
                (Lambda_body_first_item self) (values sample) σ l) as Hrel.
  unfold Lambda.apply_transform.
  destruct (for_each _ _ σ) as [[[]|e] σ']; cbn in *; rewrite Hd in Hrel;
    destruct Hrel as (d' & Hd' & Ht & Ha & HD); exists d';
    (split; [done|]; split; [done|]; split; [done|]);
    intros items Hitems; rewrite Hitems in HD;
    destruct (DATA d') as [items'|]; [|done| |done]; by exists items'.
Qed.

(** X10: when no image of the sample has its [TYPE] among
    [types_to_apply], and so for the empty list, nothing is processed: the
    callable is not called, no check is made, and the sample is returned
    with the store as it was. *)
Theorem Lambda_filter_excludes_all (f : value -> value) (types : list string)
    (sample : Sample) (σ : store) :
  Forall (no_type_among types σ) (values sample) ->
  Lambda.apply_transform tensor_setitem0 (Lambda.mk f (Some types)) sample σ
  = (Ok sample, σ).
Proof.
  intros Hall. unfold Lambda.apply_transform.
  enough (Hloop : for_each (Lambda.body tensor_setitem0 (Lambda.mk f (Some types)))
                    (values sample) σ = (Ok tt, σ)) by (by rewrite Hloop).
  induction Hall as [|x ls Hx Hall IH]; [done|].
  rewrite for_each_cons, Lambda_body_skip; [done|].
  unfold no_type_among in Hx. destruct (is_image_dict σ x) as [d|]; [|done].
  cbn. by rewrite bool_decide_eq_false_2.
Qed.

(** X11: [types_to_apply] is used for membership only: two lists with the
    same members, in any order and with any repetitions, give the same
    outcome and the same store. *)
Theorem Lambda_filter_is_a_set (f : value -> value) (types1 types2 : list string)
    (sample : Sample) (σ : store) :
  (list_to_set types1 : gset string) = list_to_set types2 ->
  Lambda.apply_transform tensor_setitem0 (Lambda.mk f (Some types1)) sample σ
  = Lambda.apply_transform tensor_setitem0 (Lambda.mk f (Some types2)) sample σ.
Proof.
  intros Hset. unfold Lambda.apply_transform.
  rewrite (for_each_ext (Lambda.body tensor_setitem0 (Lambda.mk f (Some types1)))
             (Lambda.body tensor_setitem0 (Lambda.mk f (Some types2)))); [done|].
  intros x σ0. unfold Lambda.body, Lambda.filtered_out. cbn.
  destruct (is_image_dict σ0 x) as [d|]; [|done].
  assert (Hmem : bool_decide (TYPE d ∈ types1) = bool_decide (TYPE d ∈ types2)).
  { apply bool_decide_ext.
    rewrite <- (elem_of_list_to_set (C := gset string) (TYPE d) types1).
    rewrite <- (elem_of_list_to_set (C := gset string) (TYPE d) types2).
    by rewrite Hset. }
  by rewrite Hmem.
Qed.

(** X12: two errors that are not [ValueError].  When the images before [l]
    were processed and the image at [l] passes the filter:
    - if its [DATA] is an empty list, [apply_transform] raises [IndexError];
    - if the first item of its [DATA] has no [ndim] and the callable
      returns a tensor of 32-bit floats for it, [apply_transform] raises
      [AttributeError];
    and the store is as it was before that image. *)
Theorem Lambda_index_and_attribute_errors (self : Lambda.t) (sample : Sample)
    (σ σ1 : store) (pre post : list loc) (l : loc) (d : ImageDict) :
  values sample = pre ++ l :: post ->
  for_each (Lambda.body tensor_setitem0 self) pre σ = (Ok tt, σ1) ->
  is_image_dict σ1 l = Some d ->
  Lambda.filtered_out self (TYPE d) = false ->
  (DATA d = CList [] ->
     Lambda.apply_transform tensor_setitem0 self sample σ = (Raise IndexError, σ1))
  /\ (forall cls items r,
        DATA d = CList (VOpaque cls :: items) ->
        Lambda.function self (VOpaque cls) = VTensor r -> dtype_of r = float32 ->
        Lambda.apply_transform tensor_setitem0 self sample σ
        = (Raise AttributeError, σ1)).
Proof.
  intros Hvals Hpre Hd Hf. unfold Lambda.apply_transform.
  rewrite Hvals, for_each_app, Hpre, for_each_cons.
  split.
  - intros HD.
    assert (Hbody : Lambda.body tensor_setitem0 self l σ1 = (Raise IndexError, σ1)).
    { unfold Lambda.body. by rewrite Hd, Hf, HD. }
    by rewrite Hbody.
  - intros cls items r HD Hr Hdt.
    assert (Hbody : Lambda.body tensor_setitem0 self l σ1 = (Raise AttributeError, σ1)).
    { unfold Lambda.body. rewrite Hd, Hf, HD. cbn. rewrite Hr.
      by rewrite bool_decide_eq_true_2. }
    by rewrite Hbody.
Qed.

Lemma Lambda_applied_compose (f g : value -> value) (types : option (list string))
    (o : object) :
  Lambda.applied (Lambda.mk g types) (Lambda.applied (Lambda.mk f types) o)
  = Lambda.applied (Lambda.mk (fun x => g (f x)) types) o.
Proof.
  destruct o as [[ty data affine]|v]; [|done].
  unfold Lambda.applied, Lambda.filtered_out. cbn.
  destruct types as [ts|]; cbn.
  - destruct (bool_decide (ty ∈ ts)) eqn:Hty; cbn; [|by rewrite Hty].
    destruct data as [[|x items]|]; cbn; by rewrite ?Hty.
  - by destruct data as [[|x items]|].
Qed.

(** X13: applying [Lambda(f)] and then [Lambda(g)], with the same filter,
    to a sample that names every object once, when every image that passes
    the filter is accepted both times, gives what one [Lambda] with
    [g] after [f] as its callable gives: the same outcome and the same
    store. *)
Theorem Lambda_composes (f g : value -> value) (types : option (list string))
    (sample : Sample) (σ : store) :
  NoDup (values sample) ->
  Lambda.all_accepted (Lambda.mk f types) σ (values sample) ->
  Lambda.all_accepted (Lambda.mk g types)
    (Lambda.apply_transform tensor_setitem0 (Lambda.mk f types) sample σ).2
    (values sample) ->
  (Lambda.apply_transform tensor_setitem0 (Lambda.mk f types) sample σ).1 = Ok sample
  /\ Lambda.apply_transform tensor_setitem0 (Lambda.mk g types) sample
       (Lambda.apply_transform tensor_setitem0 (Lambda.mk f types) sample σ).2
     = Lambda.apply_transform tensor_setitem0
         (Lambda.mk (fun x => g (f x)) types) sample σ.
Proof.
  intros Hnd Hf Hg.
  pose proof (all_accepted_spec _ _ _ Hf) as Hf'.
  destruct (Lambda_loop_applied tensor_setitem0 (Lambda.mk f types)
              (values sample) σ Hnd Hf') as (σ1 & Hloop1 & Hσ1).
  unfold Lambda.apply_transform in *. rewrite Hloop1 in *. cbn in Hg |- *.
  split; [done|].
  pose proof (all_accepted_spec _ _ _ Hg) as Hg'.
  destruct (Lambda_loop_applied tensor_setitem0 (Lambda.mk g types)
              (values sample) σ1 Hnd Hg') as (σ2 & Hloop2 & Hσ2).
  destruct (Lambda_loop_applied tensor_setitem0 (Lambda.mk (fun x => g (f x)) types)
              (values sample) σ Hnd) as (σ3 & Hloop3 & Hσ3).
  { intros l d Hl Hd Hfl.
    destruct (Hf' l d Hl Hd Hfl) as (x & items & HD & Hacc).
    exists x, items. split; [done|].
    assert (Hd1 : is_image_dict σ1 l
                  = Some (set_DATA d (CList (f x :: items)))).
    { apply is_image_dict_Some. rewrite Hσ1, bool_decide_eq_true_2 by done.
      apply is_image_dict_Some in Hd. rewrite Hd. cbn.
      unfold Lambda.filtered_out in *. cbn in *. by rewrite Hfl, HD. }
    destruct (Hg' l _ Hl Hd1 Hfl) as (x1 & items1 & HD1 & Hacc1).
    cbn in HD1. simplify_eq. cbn in *.
    unfold Lambda.accepted in *.
    destruct (f x) as [r| |]; [|done..].
    destruct (ndim x) as [n|]; [|done].
    destruct (g (VTensor r)) as [r'| |]; [|done..]. cbn in *.
    apply andb_prop in Hacc as [_ Hn]. apply andb_prop in Hacc1 as [Hdt Hn'].
    apply bool_decide_eq_true in Hn, Hn'.
    rewrite Hdt. cbn. apply bool_decide_eq_true. congruence. }
  rewrite Hloop2, Hloop3. do 2 f_equal. apply map_eq. intros l.
  rewrite Hσ2, Hσ3, Hσ1. destruct (bool_decide (l ∈ values sample)); [|done].
  rewrite <- option_fmap_compose. apply option_fmap_ext.
  intros o. apply Lambda_applied_compose.
Qed.

End LambdaFurther.

(** X14: [None] as [types_to_apply] is the list of every type: when the
    [TYPE] of every image of the sample is among [types], a [Lambda] with
    [types] and one with [None] give the same outcome and the same store. *)
Theorem Lambda_none_is_every_type
    (tensor_setitem0 : array -> value -> result array)
    (f : value -> value) (types : list string) (sample : Sample) (σ : store) :
  Forall (type_among types σ) (values sample) ->
  Lambda.apply_transform tensor_setitem0 (Lambda.mk f (Some types)) sample σ
  = Lambda.apply_transform tensor_setitem0 (Lambda.mk f None) sample σ.
Proof.
  intros Hall. unfold Lambda.apply_transform.
  enough (Hloop : for_each (Lambda.body tensor_setitem0 (Lambda.mk f (Some types)))
                    (values sample) σ
                  = for_each (Lambda.body tensor_setitem0 (Lambda.mk f None))
                      (values sample) σ) by (by rewrite Hloop).
  revert σ Hall. induction (values sample) as [|x ls IH]; intros σ Hall; [done|].
  apply Forall_cons in Hall as [Hx Hall].
  assert (Hbody : Lambda.body tensor_setitem0 (Lambda.mk f (Some types)) x σ
                  = Lambda.body tensor_setitem0 (Lambda.mk f None) x σ).
  { unfold Lambda.body, Lambda.filtered_out, type_among in *. cbn.
    destruct (is_image_dict σ x) as [d|]; [|done].
    by rewrite bool_decide_eq_true_2. }
  rewrite !for_each_cons, Hbody.
  pose proof (Lambda_body_retouched tensor_setitem0 (Lambda.mk f None) x σ) as Hret.
  destruct (Lambda.body tensor_setitem0 (Lambda.mk f None) x σ) as [[[]|e] σ1];
    [|done].
  apply IH. apply Forall_forall. intros l Hl.
  pose proof (proj1 (Forall_forall _ _) Hall l Hl) as Hat.
  specialize (Hret l). cbn in Hret.
  unfold type_among, is_image_dict in *.
  destruct (σ !! l) as [[d|v]|].
  - destruct Hret as (d' & -> & ->). done.
  - by rewrite Hret.
  - by rewrite Hret.
Qed.

(** ** The further theorems at the example sample *)

Lemma Bounds_rewrites_every_image_witness :
  exists σ',
    BoundsTransform.apply_transform array example_nib_to_sitk example_sitk_to_nib
      example_bounds_function (BoundsTransform.mk [1; 1; 1; 1; 1; 1])
      example_sample example_store = (Ok example_sample, σ')
    /\ σ' !! 0%nat
       = Some (OImage (mkImageDict "intensity"
                 (CTensor (mkArray float32 [1; 1; 1; 1]%nat [5])) identity4))
    /\ σ' !! 2%nat = example_store !! 2%nat.
Proof.
  destruct (Bounds_rewrites_every_image array example_nib_to_sitk example_sitk_to_nib
              example_bounds_function [1; 1; 1] [1; 1; 1]
              (BoundsTransform.mk [1; 1; 1; 1; 1; 1]) example_sample example_store)
    as (σ' & Happly & Himage & Hother & _);
    [reflexivity|reflexivity|compute_done|compute_done|].
  exists σ'. split; [exact Happly|]. split.
  - apply (Himage 0%nat
             (mkImageDict "intensity" (CList [VTensor (one_voxel 5)]) identity4)
             (mkArray float32 [1; 1; 1]%nat [5]) identity4);
      [compute_done|reflexivity|reflexivity].
  - apply Hother. reflexivity.
Defined.

Lemma Bounds_failing_image_untouched_witness :
  BoundsTransform.apply_transform array picky_nib_to_sitk example_sitk_to_nib
    example_bounds_function (BoundsTransform.mk [1; 1; 1; 1; 1; 1])
    example_sample example_store = (Raise RuntimeError, example_store_rewritten)
  /\ example_store_rewritten !! 1%nat = example_store !! 1%nat.
Proof.
  destruct (Bounds_failing_image_untouched array picky_nib_to_sitk example_sitk_to_nib
              example_bounds_function [1; 1; 1] [1; 1; 1]
              (BoundsTransform.mk [1; 1; 1; 1; 1; 1]) example_sample
              example_store example_store_rewritten example_store_rewritten
              [0%nat] [2%nat] 1%nat RuntimeError)
    as [Happly Hsame];
    [reflexivity|reflexivity|reflexivity|by vm_compute|by vm_compute|].
  split; [exact Happly|]. apply Hsame. compute_done.
Defined.

Lemma Bounds_written_data_read_back_witness :
  exists d' a,
    is_image_dict example_store_rewritten 0%nat = Some d'
    /\ (well_formed a -> getitem0 (DATA d') = Ok (VTensor a)).
Proof.
  destruct (Bounds_written_data_read_back array example_nib_to_sitk example_sitk_to_nib
              example_bounds_function [1; 1; 1] [1; 1; 1]
              0%nat example_store example_store_rewritten
              (mkImageDict "intensity" (CList [VTensor (one_voxel 5)]) identity4))
    as (d' & a & image & Hd' & _ & _ & Hread); [reflexivity|by vm_compute|].
  exists d', a. split; [exact Hd'|exact Hread].
Defined.

Lemma Lambda_writes_first_item_only_witness :
  exists d',
    (Lambda.apply_transform refuse_setitem0 (Lambda.mk double_ones None)
       example_sample example_store).2 !! 0%nat = Some (OImage d')
    /\ AFFINE d' = identity4 /\ TYPE d' = "intensity".
Proof.
  destruct (Lambda_writes_first_item_only refuse_setitem0 (Lambda.mk double_ones None)
              example_sample example_store 0%nat
              (mkImageDict "intensity" (CList [VTensor (one_voxel 5)]) identity4))
    as (d' & Hd' & Ha & Ht & _); [reflexivity|].
  exists d'. split; [exact Hd'|]. split; [exact Ha|exact Ht].
Defined.

Lemma Lambda_filter_excludes_all_witness :
  Lambda.apply_transform refuse_setitem0 (Lambda.mk double_ones (Some []))
    example_sample example_store = (Ok example_sample, example_store).
Proof.
  apply (Lambda_filter_excludes_all refuse_setitem0 double_ones []
           example_sample example_store).
  compute_done.
Defined.

Lemma Lambda_filter_is_a_set_witness :
  Lambda.apply_transform refuse_setitem0
    (Lambda.mk zeros_like (Some ["intensity"; "label"])) example_sample example_store
  = Lambda.apply_transform refuse_setitem0
      (Lambda.mk zeros_like (Some ["label"; "intensity"; "label"]))
      example_sample example_store.
Proof.
  apply (Lambda_filter_is_a_set refuse_setitem0 zeros_like
           ["intensity"; "label"] ["label"; "intensity"; "label"]
           example_sample example_store).
  by vm_compute.
Defined.

Lemma Lambda_index_and_attribute_errors_witness :
  Lambda.apply_transform refuse_setitem0 (Lambda.mk zeros_like None)
    [("mri", 0%nat)] empty_data_store = (Raise IndexError, empty_data_store).
Proof.
  destruct (Lambda_index_and_attribute_errors refuse_setitem0 (Lambda.mk zeros_like None)
              [("mri", 0%nat)] empty_data_store empty_data_store [] [] 0%nat
              (mkImageDict "intensity" (CList []) identity4))
    as [Hindex _]; [reflexivity..|].
  apply Hindex. reflexivity.
Defined.

Lemma Lambda_composes_witness :
  Lambda.apply_transform refuse_setitem0 (Lambda.mk ones_like None) example_sample
    (Lambda.apply_transform refuse_setitem0 (Lambda.mk zeros_like None)
       example_sample example_store).2
  = Lambda.apply_transform refuse_setitem0
      (Lambda.mk (fun x => ones_like (zeros_like x)) None) example_sample example_store.
Proof.
  destruct (Lambda_composes refuse_setitem0 zeros_like ones_like None
              example_sample example_store) as [_ Hcompose];
    [compute_done|compute_done|compute_done|].
  exact Hcompose.
Defined.

Lemma Lambda_none_is_every_type_witness :
  Lambda.apply_transform refuse_setitem0
    (Lambda.mk double_ones (Some ["label"; "intensity"])) example_sample example_store
  = Lambda.apply_transform refuse_setitem0 (Lambda.mk double_ones None)
      example_sample example_store.
Proof.
  apply (Lambda_none_is_every_type refuse_setitem0 double_ones ["label"; "intensity"]
           example_sample example_store).
  compute_done.
Defined.
